(** * Aqua Bridge: OTP login, market data and the client API facade

    A shallow embedding of

    - [api-backend/server.js]: the Express server holding the in-memory OTP
      store and the MongoDB-backed market and harvest endpoints, and
    - [services/apiService.ts]: the browser-side facade that calls the
      server and falls back to [localStorage],

    followed by the properties of the specification that can be stated over
    them.  The second server of the repository, [twilio-backend/server.js],
    which keeps no OTP state of its own (it delegates to Twilio Verify), and
    the login screen, [components/LoginScreen.tsx], follow in modules of
    their own.

    Conventions of the embedding.

    - Every handler is a function from the shared state it touches and its
      inputs to the new state and the HTTP response.  [Date.now()] and
      [Math.random()] are inputs of the handler that reads them.
    - Strings are [string]; a request field that is missing behaves like the
      empty string in every guard of the source ([!phone], [!code],
      [!grade], ...), so a field is a [string] and "absent" is the empty
      string.
    - JavaScript numbers that are only stored, copied and tested for
      truthiness (prices, quantities, epoch milliseconds) are [Z].
    - A MongoDB collection is the list of its documents in insertion order;
      the database is taken to answer, so the [catch] branches that turn a
      driver exception into a 500 response are not part of the model. *)

From Stdlib Require Import ZArith QArith Qround Ascii String List Sorted Lia DecimalString.
From stdpp Require Import gmap strings list.

Local Open Scope string_scope.
Local Open Scope Z_scope.

(** ** JavaScript helpers *)

Module Js.

(** [!!s] for a string: only the empty string is falsy. *)
Definition truthy (s : string) : bool := negb (String.eqb s "").

(** [!!n] for a number that is not NaN: only zero is falsy. *)
Definition truthy_num (n : Z) : bool := negb (Z.eqb n 0).

(** [a || b] where [a] is a string or [undefined]. *)
Definition or_else (a : option string) (b : string) : string :=
  match a with
  | Some s => if truthy s then s else b
  | None => b
  end.

(** [n.toString()] and [`${n}`] for an integer. *)
Definition toString (n : Z) : string := NilZero.string_of_int (Z.to_int n).

(** [Math.floor] on an exact rational. *)
Definition floor (q : Q) : Z := Qfloor q.

(** [s.startsWith(p)]. *)
Definition startsWith (s p : string) : bool := String.prefix p s.

(** [s.replace(/\/$/, '')]: drop one trailing slash. *)
Fixpoint dropTrailingSlash (s : string) : string :=
  match s with
  | EmptyString => EmptyString
  | String c EmptyString => if Ascii.eqb c "/"%char then EmptyString else s
  | String c rest => String c (dropTrailingSlash rest)
  end.

(** [xs.findIndex(p)], with [None] for [-1]. *)
Fixpoint findIndex {A} (p : A -> bool) (xs : list A) : option nat :=
  match xs with
  | [] => None
  | x :: rest => if p x then Some O else option_map S (findIndex p rest)
  end.

End Js.

(** ** The shared data model ([../types]) *)

Module Types.

(** Modelled from the spec: the declaration of [ShrimpPrice] in [../types],
    "{grade: enum (unique key), price: number, previousPrice: number|null,
    updatedAt: timestamp}".  [updatedAt] is optional because only the
    server's PATCH route ever writes it. *)
Record ShrimpPrice := {
  grade : string;
  price : Z;
  previousPrice : option Z;
  updatedAt : option Z
}.

(** Modelled from the spec: the submitted part of [HarvestRequest] in
    [../types], [Omit<HarvestRequest, 'id' | 'status' | 'timestamp'>]; the
    server's comment reads "expect farmerId, grade, quantity, location". *)
Record HarvestData := {
  farmerId : string;
  h_grade : string;
  quantity : Z;
  location : string
}.

(** Modelled from the spec: the declaration of [HarvestRequest] in
    [../types].  Both implementations build it as
    [{ ...data, id, status, timestamp }]: the spread keeps the submitted
    fields, and the three literal fields come last, so they override any
    field of the same name in the submitted object. *)
Record HarvestRequest := {
  data : HarvestData;
  req_id : string;
  req_status : string;
  timestamp : Z
}.

(** [(a, b) => b.timestamp - a.timestamp <= 0] and MongoDB's
    [{ timestamp: -1 }]: [a] may stand before [b]. *)
Definition newer_first (a b : HarvestRequest) : Prop := timestamp b <= timestamp a.

(** Insertion into a list that is ordered newest first, after the entries
    that are at least as new. *)
Fixpoint insert_desc (x : HarvestRequest) (l : list HarvestRequest) : list HarvestRequest :=
  match l with
  | [] => [x]
  | y :: rest =>
      if timestamp y <? timestamp x then x :: l else y :: insert_desc x rest
  end.

(** [.sort({ timestamp: -1 })] and [.sort((a, b) => b.timestamp - a.timestamp)]:
    a stable sort by descending timestamp. *)
Definition sort_desc (l : list HarvestRequest) : list HarvestRequest :=
  fold_left (fun acc x => insert_desc x acc) l [].

End Types.

(** ** api-backend/server.js *)

Module Server.

Import Types.

(** *** HTTP responses *)

(** The JSON bodies the routes send. *)
Inductive Body :=
| ErrorOnly (error : string)                  (* { error } *)
| Failure (error : string)                    (* { success: false, error } *)
| OtpGenerated (message code : string)        (* { success: true, message, code } *)
| SmsSent (sid : string)                      (* { success: true, sid } *)
| Message (message : string)                  (* { success: true, message } *)
| Status (status : bool)                      (* { success: true, status } *)
| Prices (prices : list ShrimpPrice)          (* a bare array *)
| PriceUpdated (price : ShrimpPrice)          (* { success: true, price } *)
| RequestCreated (request : HarvestRequest)   (* { success: true, request } *)
| Requests (requests : list HarvestRequest).  (* a bare array *)

Record Response := { status : Z; body : Body }.

(** [res.status(c).json(b)] and [res.json(b)]. *)
Definition status_json (c : Z) (b : Body) : Response := {| status := c; body := b |}.
Definition json (b : Body) : Response := status_json 200 b.

(** *** The OTP store *)

(** [otpStore = new Map()], phone -> { code, expiresAt }. *)
Record OtpEntry := { code : string; expiresAt : Z }.

(** [genOtp = () => Math.floor(100000 + Math.random() * 900000).toString()];
    [random] is the value [Math.random()] returned, a rational; the product
    and the sum are taken exactly. *)
Definition genOtp (random : Q) : string :=
  Js.toString (Js.floor (100000 + random * 900000)%Q).

(** [twilioClient.messages.create({ body, from, to })] either resolves with
    a message carrying a [sid] or rejects. *)
Record SmsMessage := { sms_body : string; sms_from : option string; sms_to : string }.
Inductive SmsResult := Sent (sid : string) | SendFailed.

Section Otp.

(** [twilioClient] is [null] unless both Twilio credentials are set;
    [TWILIO_PHONE] is [process.env.TWILIO_PHONE_NUMBER]. *)
Variable twilioClient : option (SmsMessage -> SmsResult).
Variable TWILIO_PHONE : option string.

(** POST /send-otp; [now] is the value of [Date.now()]. *)
Definition send_otp (otpStore : gmap string OtpEntry)
    (phone : string) (now : Z) (random : Q)
  : gmap string OtpEntry * Response :=
  if negb (Js.truthy phone) then
    (otpStore, status_json 400 (ErrorOnly "phone required"))
  else
    let code := genOtp random in
    let expiresAt := now + 5 * 60 * 1000 in
    let otpStore := <[phone := {| code := code; expiresAt := expiresAt |}]> otpStore in
    match twilioClient with
    | None =>
        (otpStore,
         json (OtpGenerated "OTP generated (not sent - twilio not configured)" code))
    | Some client =>
        match client {| sms_body := "Your AquaBridge verification code is " ++ code;
                        sms_from := TWILIO_PHONE;
                        sms_to := phone |} with
        | Sent sid => (otpStore, json (SmsSent sid))
        | SendFailed => (otpStore, status_json 500 (Failure "Failed to send SMS"))
        end
    end.

End Otp.

(** POST /verify-otp; [now] is the value of [Date.now()]. *)
Definition verify_otp (otpStore : gmap string OtpEntry)
    (phone code_in : string) (now : Z)
  : gmap string OtpEntry * Response :=
  if negb (Js.truthy phone) || negb (Js.truthy code_in) then
    (otpStore, status_json 400 (ErrorOnly "phone and code required"))
  else
    match otpStore !! phone with
    | None => (otpStore, status_json 400 (Failure "No code found"))
    | Some entry =>
        if expiresAt entry <? now then
          (delete phone otpStore, status_json 400 (Failure "Code expired"))
        else if negb (String.eqb (code entry) code_in) then
          (otpStore, status_json 400 (Failure "Invalid code"))
        else
          (delete phone otpStore, json (Message "Verified"))
    end.

(** The outcomes of the specification's taxonomy, as the responses that
    carry them. *)
Definition NotFound : Response := status_json 400 (Failure "No code found").
Definition Expired : Response := status_json 400 (Failure "Code expired").
Definition Mismatch : Response := status_json 400 (Failure "Invalid code").
Definition Verified : Response := json (Message "Verified").

(** *** MongoDB collections *)

(** [coll.findOne(filter)]: the first matching document. *)
Definition findOne {D} (filter : D -> bool) (coll : list D) : option D :=
  List.find filter coll.

(** [coll.insertOne(doc)]. *)
Definition insertOne {D} (doc : D) (coll : list D) : list D := coll ++ [doc].

(** [$set] applied to the first matching document. *)
Fixpoint setFirst {D} (filter : D -> bool) (set : D -> D) (coll : list D) : list D :=
  match coll with
  | [] => []
  | d :: rest => if filter d then set d :: rest else d :: setFirst filter set rest
  end.

(** [coll.updateOne(filter, { $set }, { upsert: true })]: [fresh] is the
    document made of the filter's fields and the [$set] fields. *)
Definition updateOne_upsert {D} (filter : D -> bool) (set : D -> D) (fresh : D)
    (coll : list D) : list D :=
  match findOne filter coll with
  | Some _ => setFirst filter set coll
  | None => insertOne fresh coll
  end.

(** [coll.find(filter)]. *)
Definition find {D} (filter : D -> bool) (coll : list D) : list D :=
  List.filter filter coll.

(** *** Market status, kept in the [app_meta] collection *)

Record MetaDoc := { key : string; value : bool }.

Definition is_market_status (d : MetaDoc) : bool := String.eqb (key d) "market_status".

(** GET /market-status. *)
Definition get_market_status (app_meta : list MetaDoc) : Response :=
  let doc := findOne is_market_status app_meta in
  let status := match doc with Some d => negb (negb (value d)) | None => true end in
  json (Status status).

(** POST /market-status. *)
Definition post_market_status (app_meta : list MetaDoc) (isOpen : bool)
  : list MetaDoc * Response :=
  (updateOne_upsert is_market_status
     (fun d => {| key := key d; value := negb (negb isOpen) |})
     {| key := "market_status"; value := negb (negb isOpen) |}
     app_meta,
   json (Status (negb (negb isOpen)))).

(** *** Market prices *)

(** GET /market-prices. *)
Definition get_market_prices (pricesColl : list ShrimpPrice) : Response :=
  json (Prices (find (fun _ => true) pricesColl)).

(** PATCH /market-prices; [price_in] is [Some p] when [typeof price] is
    ['number'], [now] is [new Date()]. *)
Definition patch_market_prices (pricesColl : list ShrimpPrice)
    (grade_in : string) (price_in : option Z) (now : Z)
  : list ShrimpPrice * Response :=
  match Js.truthy grade_in, price_in with
  | true, Some p =>
      let by_grade := fun d => String.eqb (grade d) grade_in in
      let existing := findOne by_grade pricesColl in
      let previousPrice :=
        match existing with Some e => Some (price e) | None => None end in
      let updated := {| grade := grade_in; price := p;
                        previousPrice := previousPrice; updatedAt := Some now |} in
      (updateOne_upsert by_grade (fun _ => updated) updated pricesColl,
       json (PriceUpdated updated))
  | _, _ => (pricesColl, status_json 400 (Failure "Invalid payload"))
  end.

(** *** Harvest requests *)

(** POST /harvest-requests; [now_id] and [now] are the two readings of
    [Date.now()], [suffix] is [Math.random().toString(36).substr(2, 9)]. *)
Definition post_harvest_requests (harvestColl : list HarvestRequest)
    (data_in : HarvestData) (now_id now : Z) (suffix : string)
  : list HarvestRequest * Response :=
  if negb (Js.truthy (farmerId data_in)) || negb (Js.truthy (h_grade data_in))
     || negb (Js.truthy_num (quantity data_in)) then
    (harvestColl, status_json 400 (Failure "Missing fields"))
  else
    let newReq := {| data := data_in;
                     req_id := "req_" ++ Js.toString now_id ++ "_" ++ suffix;
                     req_status := "Pending Approval";
                     timestamp := now |} in
    (insertOne newReq harvestColl, status_json 201 (RequestCreated newReq)).

(** The filter of GET /harvest-requests: [{ farmerId }] when the query
    parameter is truthy, [{}] otherwise. *)
Definition harvest_filter (query_farmerId : option string) : HarvestRequest -> bool :=
  let farmerId_q :=
    match query_farmerId with
    | Some f => if Js.truthy f then Some f else None
    | None => None
    end in
  match farmerId_q with
  | Some f => if Js.truthy f then fun d => String.eqb (farmerId (data d)) f
              else fun _ => true
  | None => fun _ => true
  end.

(** The array GET /harvest-requests answers with. *)
Definition list_harvest_requests (harvestColl : list HarvestRequest)
    (query_farmerId : option string) : list HarvestRequest :=
  sort_desc (find (harvest_filter query_farmerId) harvestColl).

(** GET /harvest-requests. *)
Definition get_harvest_requests (harvestColl : list HarvestRequest)
    (query_farmerId : option string) : Response :=
  json (Requests (list_harvest_requests harvestColl query_farmerId)).

End Server.

(** ** services/apiService.ts *)

Module ApiService.

Import Types.

(** *** Configuration *)

(** [import.meta.env]: a variable is [undefined] or a string. *)
Record Env := { VITE_API_BASE_URL : option string; VITE_API_BASE : option string }.

(** [API_BASE = VITE_API_BASE_URL || VITE_API_BASE || 'http://localhost:4000']. *)
Definition API_BASE (env : Env) : string :=
  Js.or_else (VITE_API_BASE_URL env)
    (Js.or_else (VITE_API_BASE env) "http://localhost:4000").

(** *** The browser: local storage, the network and timers *)

(** [localStorage], restricted to the three keys the service uses.  A key is
    either absent ([getItem] answers [null]) or holds the JSON text of a
    value of the type the service reads it at; the text is identified with
    that value. *)
Record LocalStorage := {
  harvest_requests : option (list HarvestRequest); (* 'aqua_bridge_harvest_requests' *)
  market_prices : option (list ShrimpPrice);       (* 'aqua_bridge_market_prices' *)
  market_status : option bool                      (* 'aqua_bridge_market_status' *)
}.

(** The value [JSON.stringify] is applied to for a request body. *)
Inductive Payload :=
| IsOpen (isOpen : bool)
| GradePrice (grade_out : string) (price_out : Z)
| Submit (data_out : HarvestData)
| NewStatus (status_out : string).

(** [RequestInit], with the one header the service sends. *)
Record RequestInit := { method : string; content_type : string; req_body : Payload }.

(** A JavaScript [Error]: its constructor name and message. *)
Record Error := { name : string; message : string }.
Definition new_Error (msg : string) : Error := {| name := "Error"; message := msg |}.

(** What [fetch] resolves with.  [parsed] is [await res.json().catch(() => null)]:
    [None] when the body is not JSON or is the JSON [null]. *)
Record HttpResponse (T : Type) := {
  ok : bool;
  http_status : Z;
  statusText : string;
  text : string;
  parsed : option T
}.
Arguments ok {T}.
Arguments http_status {T}.
Arguments statusText {T}.
Arguments text {T}.
Arguments parsed {T}.

(** [fetch(url, options)] rejects with a network error or resolves with a
    response. *)
Inductive FetchResult (T : Type) :=
| NetworkError (err : Error)
| Answered (res : HttpResponse T).
Arguments NetworkError {T}.
Arguments Answered {T}.

(** The world outside the page, as seen through [fetch]. *)
Definition Remote (T : Type) : Type := string -> option RequestInit -> FetchResult T.

(** The state an operation of the service runs in: the storage, the
    network calls made so far and the timers set so far. *)
Record World := {
  localStorage : LocalStorage;
  fetched : list (string * option RequestInit);
  timers : list Z
}.

(** *** Promises: state passing with exceptions *)

Inductive Result (A : Type) :=
| Resolved (a : A)
| Rejected (e : Error).
Arguments Resolved {A}.
Arguments Rejected {A}.

Definition M (A : Type) : Type := World -> Result A * World.

Definition ret {A} (a : A) : M A := fun w => (Resolved a, w).

Definition throw {A} (e : Error) : M A := fun w => (Rejected e, w).

Definition bind {A B} (c : M A) (k : A -> M B) : M B :=
  fun w =>
    match c w with
    | (Resolved a, w') => k a w'
    | (Rejected e, w') => (Rejected e, w')
    end.

(** [try { c } catch (err) { handler }]: the effects of [c] up to the throw
    stay. *)
Definition try_catch {A} (c : M A) (handler : Error -> M A) : M A :=
  fun w =>
    match c w with
    | (Resolved a, w') => (Resolved a, w')
    | (Rejected e, w') => handler e w'
    end.

Declare Scope promise_scope.
Delimit Scope promise_scope with promise.
Notation "x <- c ;; k" := (bind c (fun x => k))
  (at level 100, c at next level, right associativity) : promise_scope.
Notation "c ;;; k" := (bind c (fun _ => k))
  (at level 100, right associativity) : promise_scope.
Local Open Scope promise_scope.

(** [await fetch(url, options)]: the call is recorded, then the remote side
    decides. *)
Definition record_fetch (url : string) (options : option RequestInit) (w : World)
  : World :=
  {| localStorage := localStorage w;
     fetched := fetched w ++ [(url, options)];
     timers := timers w |}.

Definition fetch {T} (remote : Remote T) (url : string) (options : option RequestInit)
  : M (HttpResponse T) :=
  fun w =>
    let w' := record_fetch url options w in
    match remote url options with
    | NetworkError err => (Rejected err, w')
    | Answered res => (Resolved res, w')
    end.

(** [withLatency(data, ms = 400)]. *)
Definition withLatency {T} (data : T) : M T :=
  fun w =>
    (Resolved data,
     {| localStorage := localStorage w;
        fetched := fetched w;
        timers := timers w ++ [400] |}).

Definition getStorage : M LocalStorage := fun w => (Resolved (localStorage w), w).

Definition setStorage (ls : LocalStorage) : M unit :=
  fun w =>
    (Resolved tt,
     {| localStorage := ls; fetched := fetched w; timers := timers w |}).

(** *** Local storage helpers *)

Section Service.

(** [MOCK_SHRIMP_PRICES], imported from [../constants]. *)
Variable MOCK_SHRIMP_PRICES : list ShrimpPrice.

(** [savePricesDb]. *)
Definition savePricesDb (db : list ShrimpPrice) : M unit :=
  ls <- getStorage ;;
  setStorage {| harvest_requests := harvest_requests ls;
                market_prices := Some db;
                market_status := market_status ls |}.

(** [getPricesDb]: the stored list, or the defaults, which it stores. *)
Definition getPricesDb : M (list ShrimpPrice) :=
  ls <- getStorage ;;
  match market_prices ls with
  | Some db => ret db
  | None =>
      let initialPrices := map (fun p => p) MOCK_SHRIMP_PRICES in
      savePricesDb initialPrices ;;;
      ret initialPrices
  end.

(** *** The network helper *)

(** The URL [tryFetch] builds. *)
Definition build_url (API_BASE : string) (path : string) : string :=
  if Js.startsWith path "http" then path
  else Js.dropTrailingSlash API_BASE
       ++ (if Js.startsWith path "/" then "" else "/") ++ path.

(** [tryFetch(path, options, fallback)].  The result is [None] for [null].
    A fallback throws when it is called, before it returns its promise, so
    the [try] block that calls it, without awaiting, catches its
    exception. *)
Definition tryFetch {T} (API_BASE : string) (remote : Remote T)
    (path : string) (options : option RequestInit) (fallback : option (M T))
  : M (option T) :=
  if negb (Js.truthy API_BASE) then
    match fallback with
    | Some fb => (data <- fb ;; ret (Some data))
    | None => throw (new_Error "No API base configured and no fallback provided.")
    end
  else
    let url := build_url API_BASE path in
    try_catch
      (res <- fetch remote url options ;;
       if negb (ok res) then
         match fallback with
         | Some fb => (data <- fb ;; ret (Some data))
         | None =>
             throw (new_Error ("Request failed: " ++ Js.toString (http_status res)
                               ++ " " ++ statusText res ++ " " ++ text res))
         end
       else
         match parsed res, fallback with
         | None, Some fb => (data <- fb ;; ret (Some data))
         | data, _ => ret data
         end)
      (fun err =>
         match fallback with
         | Some fb =>
             try_catch (data <- fb ;; ret (Some data)) (fun e => throw err)
         | None => throw err
         end).

(** *** Market status *)

(** [boolean | { success: boolean; status?: boolean }]. *)
Inductive StatusReply :=
| StatusBare (b : bool)
| StatusEnvelope (success : bool) (status : option bool).

Definition getMarketStatus_fallback : M StatusReply :=
  ls <- getStorage ;;
  withLatency (StatusBare (match market_status ls with Some b => b | None => true end)).

Definition getMarketStatus (API_BASE : string) (remote : Remote StatusReply) : M bool :=
  r <- tryFetch API_BASE remote "/market-status" None (Some getMarketStatus_fallback) ;;
  match r with
  | Some (StatusBare b) => ret b
  | Some (StatusEnvelope _ (Some s)) => ret s
  | Some (StatusEnvelope _ None) => ret true       (* Boolean(r), an object *)
  | None => ret false                              (* Boolean(null) *)
  end.

Definition updateMarketStatus_fallback (isOpen : bool) : M StatusReply :=
  ls <- getStorage ;;
  setStorage {| harvest_requests := harvest_requests ls;
                market_prices := market_prices ls;
                market_status := Some isOpen |} ;;;
  withLatency (StatusBare isOpen).

Definition updateMarketStatus (API_BASE : string) (remote : Remote StatusReply)
    (isOpen : bool) : M bool :=
  r <- tryFetch API_BASE remote "/market-status"
         (Some {| method := "POST"; content_type := "application/json";
                  req_body := IsOpen isOpen |})
         (Some (updateMarketStatus_fallback isOpen)) ;;
  match r with
  | Some (StatusEnvelope _ (Some s)) => ret s
  | Some (StatusEnvelope true None) => ret isOpen
  | Some (StatusEnvelope false None) => ret true   (* Boolean(r), an object *)
  | Some (StatusBare b) => ret b                   (* Boolean(r) *)
  | None => ret false                              (* Boolean(null) *)
  end.

(** *** Market prices *)

(** [ShrimpPrice[] | { success: boolean; prices?: ShrimpPrice[] }]. *)
Inductive PricesReply :=
| PricesArray (prices : list ShrimpPrice)
| PricesEnvelope (success : bool) (prices : option (list ShrimpPrice)).

Definition getMarketPrices_fallback : M PricesReply :=
  db <- getPricesDb ;;
  withLatency (PricesArray db).

Definition getMarketPrices (API_BASE : string) (remote : Remote PricesReply)
  : M (list ShrimpPrice) :=
  r <- tryFetch API_BASE remote "/market-prices" None (Some getMarketPrices_fallback) ;;
  match r with
  | Some (PricesArray prices) => ret prices
  | Some (PricesEnvelope _ (Some prices)) => ret prices
  | _ => getPricesDb
  end.

(** [ShrimpPrice | { success: boolean; price?: ShrimpPrice }]. *)
Inductive PriceReply :=
| PriceBare (p : ShrimpPrice)
| PriceEnvelope (success : bool) (price : option ShrimpPrice).

(** What the [then] of [updateMarketPrice] hands to the caller: [r.price]
    when it is truthy, [r] itself otherwise. *)
Inductive PriceOutcome :=
| OutPrice (p : ShrimpPrice)
| OutNumber (n : Z)
| OutEnvelope (success : bool)
| OutNull.

Definition updateMarketPrice_fallback (grade_in : string) (newPrice : Z) : M PriceReply :=
  db <- getPricesDb ;;
  match Js.findIndex (fun p => String.eqb (grade p) grade_in) db with
  | None => throw (new_Error "Price for grade not found")
  | Some idx =>
      match db !! idx with
      | None => throw {| name := "TypeError";
                         message := "Cannot read properties of undefined" |}
      | Some row =>
          let old := price row in
          let updated := {| grade := grade row; price := newPrice;
                            previousPrice := Some old; updatedAt := updatedAt row |} in
          let db := <[idx := updated]> db in
          savePricesDb db ;;;
          withLatency (PriceBare updated)
      end
  end.

Definition updateMarketPrice (API_BASE : string) (remote : Remote PriceReply)
    (grade_in : string) (newPrice : Z) : M PriceOutcome :=
  r <- tryFetch API_BASE remote "/market-prices"
         (Some {| method := "PATCH"; content_type := "application/json";
                  req_body := GradePrice grade_in newPrice |})
         (Some (updateMarketPrice_fallback grade_in newPrice)) ;;
  match r with
  | Some (PriceBare p) =>
      if Js.truthy_num (price p) then ret (OutNumber (price p)) else ret (OutPrice p)
  | Some (PriceEnvelope _ (Some p)) => ret (OutPrice p)
  | Some (PriceEnvelope success None) => ret (OutEnvelope success)
  | None => ret OutNull
  end.

(** *** Vocabulary of the properties *)

(** The remote call fails for [tryFetch]: a network error, a non-success
    status, or a body that does not parse (or parses to [null]). *)
Definition remote_fails {T} (remote : Remote T) (url : string)
    (options : option RequestInit) : bool :=
  match remote url options with
  | NetworkError _ => true
  | Answered res =>
      negb (ok res) || match parsed res with Some _ => false | None => true end
  end.

(** The price list of local persistence: the stored one, or the defaults
    [getPricesDb] seeds on first access. *)
Definition local_prices (ls : LocalStorage) : list ShrimpPrice :=
  match market_prices ls with
  | Some db => db
  | None => MOCK_SHRIMP_PRICES
  end.

(** The world after [localStorage.setItem(PRICES_DB_KEY, JSON.stringify(db))]. *)
Definition with_prices (db : list ShrimpPrice) (w : World) : World :=
  {| localStorage := {| harvest_requests := harvest_requests (localStorage w);
                        market_prices := Some db;
                        market_status := market_status (localStorage w) |};
     fetched := fetched w;
     timers := timers w |}.

(** The world after a timer of [withLatency]. *)
Definition after_latency (w : World) : World :=
  {| localStorage := localStorage w;
     fetched := fetched w;
     timers := timers w ++ [400] |}.

(** The row of a grade in a price list. *)
Definition price_of_grade (grade_in : string) (db : list ShrimpPrice)
  : option ShrimpPrice :=
  List.find (fun p => String.eqb (grade p) grade_in) db.

(** The row of a grade in the stored price list of a world. *)
Definition stored_price (grade_in : string) (w : World) : option ShrimpPrice :=
  match market_prices (localStorage w) with
  | Some db => price_of_grade grade_in db
  | None => None
  end.

End Service.

End ApiService.

(** ** Sample data *)

Module Sample.

Import Types ApiService.

Definition premium (p : Z) (previous : option Z) : ShrimpPrice :=
  {| grade := "Premium"; price := p; previousPrice := previous; updatedAt := None |}.

(** A browser that has never run the application. *)
Definition fresh_browser : World :=
  {| localStorage := {| harvest_requests := None;
                        market_prices := None;
                        market_status := None |};
     fetched := [];
     timers := [] |}.

(** Neither [VITE_API_BASE_URL] nor [VITE_API_BASE] is set. *)
Definition unset_env : Env := {| VITE_API_BASE_URL := None; VITE_API_BASE := None |}.

(** Nothing listens at the base address: [fetch] rejects. *)
Definition offline {T} : Remote T :=
  fun _ _ => NetworkError {| name := "TypeError"; message := "Failed to fetch" |}.

(** A server at the base address that answers GET /market-prices with an
    empty array. *)
Definition no_prices_yet : Remote PricesReply :=
  fun _ _ => Answered {| ok := true; http_status := 200; statusText := "OK";
                         text := "[]"; parsed := Some (PricesArray []) |}.

Definition dq : string := String (ascii_of_nat 34) EmptyString.

(** A server whose route handler caught an exception: status 500 and the
    body [{ success: false, error: 'Server error' }]. *)
Definition server_error : Remote PriceReply :=
  fun _ _ =>
    Answered {| ok := false; http_status := 500;
                statusText := "Internal Server Error";
                text := "{" ++ dq ++ "success" ++ dq ++ ":false," ++ dq ++ "error"
                        ++ dq ++ ":" ++ dq ++ "Server error" ++ dq ++ "}";
                parsed := Some (PriceEnvelope false None) |}.

(** A server that answers 200 with a body that is not JSON. *)
Definition not_json : Remote PriceReply :=
  fun _ _ => Answered {| ok := true; http_status := 200; statusText := "OK";
                         text := "<html></html>"; parsed := None |}.

End Sample.

(** ** api-backend/server.js, the remaining harvest route, and runs *)

Module HarvestAdmin.

Import Types Server.

(** [coll.findOneAndUpdate(filter, { $set }, { returnDocument: 'after' })]:
    the collection after the call and the document after the update,
    [null] when no document matched. *)
Definition findOneAndUpdate {D} (filter : D -> bool) (set : D -> D) (coll : list D)
  : list D * option D :=
  match findOne filter coll with
  | Some d => (setFirst filter set coll, Some (set d))
  | None => (coll, None)
  end.

(** [{ $set: { status } }] on a harvest request. *)
Definition set_status (status_in : string) (d : HarvestRequest) : HarvestRequest :=
  {| data := data d; req_id := req_id d; req_status := status_in;
     timestamp := timestamp d |}.

Section Driver.

(** What the installed MongoDB driver resolves [findOneAndUpdate] with:
    an object that carries the document in [value] ([true], the drivers
    before version 6), or the document itself ([false]).  The route reads
    [result.value] either way. *)
Variable result_has_value : bool.

(** PATCH /harvest-requests/:id.  With a bare document as result,
    [result.value] is [undefined] on a match, since a harvest request has no
    field [value], and reading it throws on [null], which the [catch] of the
    route answers with 500. *)
Definition patch_harvest_request (harvestColl : list HarvestRequest)
    (id_param status_in : string) : list HarvestRequest * Response :=
  if negb (Js.truthy status_in) then
    (harvestColl, status_json 400 (Failure "Missing status"))
  else
    let result := findOneAndUpdate (fun d => String.eqb (req_id d) id_param)
                    (set_status status_in) harvestColl in
    match result.2, result_has_value with
    | Some value, true => (result.1, json (RequestCreated value))
    | Some _, false => (result.1, status_json 404 (Failure "Request not found"))
    | None, true => (result.1, status_json 404 (Failure "Request not found"))
    | None, false => (result.1, status_json 500 (Failure "Server error"))
    end.

(** The requests that change the harvest collection. *)
Inductive HarvestCall :=
| PostRequest (data_in : HarvestData) (now_id now : Z) (suffix : string)
| PatchStatus (id_param status_in : string).

Definition handle (harvestColl : list HarvestRequest) (call : HarvestCall)
  : list HarvestRequest :=
  match call with
  | PostRequest data_in now_id now suffix =>
      (post_harvest_requests harvestColl data_in now_id now suffix).1
  | PatchStatus id_param status_in =>
      (patch_harvest_request harvestColl id_param status_in).1
  end.

(** The collection after a sequence of calls against an empty one. *)
Definition serve (calls : list HarvestCall) : list HarvestRequest :=
  fold_left handle calls [].

End Driver.

(** What no route rewrites: the submitted fields, the id and the
    timestamp. *)
Definition core (r : HarvestRequest) : HarvestData * string * Z :=
  (data r, req_id r, timestamp r).

(** Every stored request carries what POST /harvest-requests checks, and a
    status. *)
Definition well_formed (r : HarvestRequest) : Prop :=
  Js.truthy (farmerId (data r)) = true
  /\ Js.truthy (h_grade (data r)) = true
  /\ Js.truthy_num (quantity (data r)) = true
  /\ Js.truthy (req_status r) = true.

End HarvestAdmin.

Module OtpRuns.

Import Server.

(** A run of /verify-otp requests for one phone: the codes submitted and
    the times they arrive at. *)
Definition verify_all (otpStore : gmap string OtpEntry) (phone : string)
    (attempts : list (string * Z)) : gmap string OtpEntry :=
  fold_left (fun store attempt => (verify_otp store phone attempt.1 attempt.2).1)
    attempts otpStore.



End OtpRuns.

(** ** services/apiService.ts, the harvest operations *)

Module HarvestService.

Import Types ApiService.
Local Open Scope promise_scope.

(** [encodeURIComponent] on the UTF-8 bytes of a string: letters, digits
    and [- _ . ! ~ * ' ( )] stay, every other byte becomes [%XX]. *)
Definition unreserved (c : ascii) : bool :=
  let n := nat_of_ascii c in
  ((65 <=? n) && (n <=? 90) || (97 <=? n) && (n <=? 122)
   || (48 <=? n) && (n <=? 57)
   || existsb (Nat.eqb n) [45; 95; 46; 33; 126; 42; 39; 40; 41])%nat.

Definition hex_digit (n : nat) : ascii :=
  nth n (list_ascii_of_string "0123456789ABCDEF") "0"%char.

Fixpoint encodeURIComponent (s : string) : string :=
  match s with
  | EmptyString => EmptyString
  | String c rest =>
      if unreserved c then String c (encodeURIComponent rest)
      else String "%" (String (hex_digit (nat_of_ascii c / 16))
                         (String (hex_digit (nat_of_ascii c mod 16))
                            (encodeURIComponent rest)))
  end.

(** [getDb] and [saveDb]. *)
Definition getDb : M (list HarvestRequest) :=
  ls <- getStorage ;;
  ret (match harvest_requests ls with Some db => db | None => [] end).

Definition saveDb (db : list HarvestRequest) : M unit :=
  ls <- getStorage ;;
  setStorage {| harvest_requests := Some db;
                market_prices := market_prices ls;
                market_status := market_status ls |}.

(** [HarvestRequest | { success: boolean; request?: HarvestRequest }]. *)
Inductive RequestReply :=
| RequestBare (r : HarvestRequest)
| RequestEnvelope (success : bool) (request : option HarvestRequest).

(** What the [then] of [submitHarvestRequest] and of
    [updateHarvestRequestStatus] hands to the caller: [r.request] when it is
    truthy, [r] itself otherwise. *)
Inductive RequestOutcome :=
| OutRequest (r : HarvestRequest)
| OutRequestEnvelope (success : bool)
| OutRequestNull.

Definition request_outcome (r : option RequestReply) : RequestOutcome :=
  match r with
  | Some (RequestBare q) => OutRequest q
  | Some (RequestEnvelope _ (Some q)) => OutRequest q
  | Some (RequestEnvelope success None) => OutRequestEnvelope success
  | None => OutRequestNull
  end.

(** [HarvestRequest[] | { success: boolean; requests?: HarvestRequest[] }]. *)
Inductive RequestsReply :=
| RequestsArray (requests : list HarvestRequest)
| RequestsEnvelope (success : bool) (requests : option (list HarvestRequest)).

(** [submitHarvestRequest]; [now_id] and [now] are the two readings of
    [Date.now()] in the fallback, [suffix] is
    [Math.random().toString(36).substr(2, 9)]. *)
Definition submitHarvestRequest_fallback (requestData : HarvestData)
    (now_id now : Z) (suffix : string) : M RequestReply :=
  db <- getDb ;;
  let newRequest := {| data := requestData;
                       req_id := "req_" ++ Js.toString now_id ++ "_" ++ suffix;
                       req_status := "Pending Approval";
                       timestamp := now |} in
  let db := (db ++ [newRequest])%list in
  saveDb db ;;;
  withLatency (RequestBare newRequest).

Definition submitHarvestRequest (API_BASE : string) (remote : Remote RequestReply)
    (requestData : HarvestData) (now_id now : Z) (suffix : string)
  : M RequestOutcome :=
  r <- tryFetch API_BASE remote "/harvest-requests"
         (Some {| method := "POST"; content_type := "application/json";
                  req_body := Submit requestData |})
         (Some (submitHarvestRequest_fallback requestData now_id now suffix)) ;;
  ret (request_outcome r).

(** [getHarvestRequestsForUser]. *)
Definition by_farmer (farmerId_in : string) (req : HarvestRequest) : bool :=
  String.eqb (farmerId (data req)) farmerId_in.

Definition getHarvestRequestsForUser_fallback (farmerId_in : string) : M RequestsReply :=
  db <- getDb ;;
  withLatency (RequestsArray (sort_desc (List.filter (by_farmer farmerId_in) db))).

Definition getHarvestRequestsForUser (API_BASE : string) (remote : Remote RequestsReply)
    (farmerId_in : string) : M (list HarvestRequest) :=
  r <- tryFetch API_BASE remote
         ("/harvest-requests?farmerId=" ++ encodeURIComponent farmerId_in) None
         (Some (getHarvestRequestsForUser_fallback farmerId_in)) ;;
  match r with
  | Some (RequestsArray requests) => ret requests
  | Some (RequestsEnvelope _ (Some requests)) => ret requests
  | _ => (db <- getDb ;; ret (List.filter (by_farmer farmerId_in) db))
  end.

(** [getAllHarvestRequests]. *)
Definition getAllHarvestRequests_fallback : M RequestsReply :=
  db <- getDb ;;
  withLatency (RequestsArray (sort_desc db)).

Definition getAllHarvestRequests (API_BASE : string) (remote : Remote RequestsReply)
  : M (list HarvestRequest) :=
  r <- tryFetch API_BASE remote "/harvest-requests" None
         (Some getAllHarvestRequests_fallback) ;;
  match r with
  | Some (RequestsArray requests) => ret requests
  | Some (RequestsEnvelope _ (Some requests)) => ret requests
  | _ => (db <- getDb ;; ret (sort_desc db))
  end.

(** [updateHarvestRequestStatus]. *)
Definition updateHarvestRequestStatus_fallback (requestId newStatus : string)
  : M RequestReply :=
  db <- getDb ;;
  match Js.findIndex (fun r => String.eqb (req_id r) requestId) db with
  | None => throw (new_Error "Request not found")
  | Some idx =>
      match db !! idx with
      | None => throw {| name := "TypeError";
                         message := "Cannot read properties of undefined" |}
      | Some row =>
          let updated := {| data := data row; req_id := req_id row;
                            req_status := newStatus; timestamp := timestamp row |} in
          let db := <[idx := updated]> db in
          saveDb db ;;;
          withLatency (RequestBare updated)
      end
  end.

Definition updateHarvestRequestStatus (API_BASE : string) (remote : Remote RequestReply)
    (requestId newStatus : string) : M RequestOutcome :=
  r <- tryFetch API_BASE remote ("/harvest-requests/" ++ encodeURIComponent requestId)
         (Some {| method := "PATCH"; content_type := "application/json";
                  req_body := NewStatus newStatus |})
         (Some (updateHarvestRequestStatus_fallback requestId newStatus)) ;;
  ret (request_outcome r).

(** The stored harvest requests of a world. *)
Definition local_requests (w : World) : list HarvestRequest :=
  match harvest_requests (localStorage w) with Some db => db | None => [] end.

(** The world after [localStorage.setItem(DB_KEY, JSON.stringify(db))]. *)
Definition with_requests (db : list HarvestRequest) (w : World) : World :=
  {| localStorage := {| harvest_requests := Some db;
                        market_prices := market_prices (localStorage w);
                        market_status := market_status (localStorage w) |};
     fetched := fetched w;
     timers := timers w |}.

End HarvestService.

(** ** The facade talking to api-backend/server.js *)

Module Wire.

Import Types ApiService HarvestService.

(** The reason phrase Node sends with a status code. *)
Definition reason (status : Z) : string :=
  if status =? 200 then "OK"
  else if status =? 201 then "Created"
  else if status =? 400 then "Bad Request"
  else if status =? 404 then "Not Found"
  else if status =? 500 then "Internal Server Error"
  else "".

(** A response of the server as [fetch] presents it; [body_text] is the
    JSON text of the body and [parsed] what [res.json()] makes of it. *)
Definition http_of {T} (resp : Server.Response) (body_text : string)
    (parsed_body : option T) : HttpResponse T :=
  {| ok := (200 <=? Server.status resp) && (Server.status resp <=? 299);
     http_status := Server.status resp;
     statusText := reason (Server.status resp);
     text := body_text;
     parsed := parsed_body |}.

(** The JSON bodies of the server read at the types the facade expects;
    [None] for a body that has no reading at the type. *)
Definition as_status (b : Server.Body) : option StatusReply :=
  match b with
  | Server.Status s => Some (StatusEnvelope true (Some s))
  | Server.Failure _ => Some (StatusEnvelope false None)
  | _ => None
  end.

Definition as_prices (b : Server.Body) : option PricesReply :=
  match b with
  | Server.Prices prices => Some (PricesArray prices)
  | Server.Failure _ => Some (PricesEnvelope false None)
  | _ => None
  end.

Definition as_price (b : Server.Body) : option PriceReply :=
  match b with
  | Server.PriceUpdated p => Some (PriceEnvelope true (Some p))
  | Server.Failure _ => Some (PriceEnvelope false None)
  | _ => None
  end.

Definition as_request (b : Server.Body) : option RequestReply :=
  match b with
  | Server.RequestCreated r => Some (RequestEnvelope true (Some r))
  | Server.Failure _ => Some (RequestEnvelope false None)
  | _ => None
  end.

Definition as_requests (b : Server.Body) : option RequestsReply :=
  match b with
  | Server.Requests requests => Some (RequestsArray requests)
  | Server.Failure _ => Some (RequestsEnvelope false None)
  | _ => None
  end.

(** The remote side when the server answers the call with [resp], whose
    body reads as [reply]. *)
Definition answering {T} (resp : Server.Response) (body_text : string) (reply : T)
  : Remote T :=
  fun _ _ => Answered (http_of resp body_text (Some reply)).

End Wire.

(** ** twilio-backend/server.js *)

Module TwilioServer.

(** What a call into the Twilio SDK does: it resolves with the field the
    route reads, or it throws; [message] is [err?.message]. *)
Inductive Outcome :=
| Returned (value : string)
| Threw (message : option string).

(** The three SDK calls the routes make. *)
Record Twilio := {
  verifications_create : string -> string -> Outcome;          (* service, to *)
  verificationChecks_create : string -> string -> string -> Outcome; (* service, to, code *)
  messages_create : string -> string -> string -> Outcome      (* to, from, body *)
}.

(** [process.env]. *)
Record Env := {
  TWILIO_VERIFY_SID : option string;
  TWILIO_PHONE_NUMBER : option string
}.

Inductive Body :=
| ErrorOnly (error : string)                            (* { error } *)
| VerificationStarted (status : string)                 (* { success: true, status } *)
| TestMessageSent (sid : string)                        (* { success: true, sid } *)
| VerificationChecked (success : bool) (status : string). (* { success, status } *)

Record Response := { code : Z; body : Body }.

(** A variable of the environment that is set and not empty. *)
Definition configured (v : option string) : option string :=
  match v with
  | Some s => if Js.truthy s then Some s else None
  | None => None
  end.

(** [err?.message || 'server error'] in the [catch] of both routes. *)
Definition server_error (message : option string) : Response :=
  {| code := 500; body := ErrorOnly (Js.or_else message "server error") |}.

Section Routes.

Variable env : Env.

(** [twilioClient], [undefined] when the SDK could not be set up. *)
Variable twilioClient : option Twilio.

(** POST /send-otp. *)
Definition send_otp (phone : string) : Response :=
  if negb (Js.truthy phone) then {| code := 400; body := ErrorOnly "phone required" |}
  else
    match configured (TWILIO_VERIFY_SID env), twilioClient with
    | Some service, Some client =>
        match verifications_create client service phone with
        | Returned status => {| code := 200; body := VerificationStarted status |}
        | Threw message => server_error message
        end
    | _, _ =>
        match twilioClient, configured (TWILIO_PHONE_NUMBER env) with
        | Some client, Some from =>
            match messages_create client phone from
                    "Test OTP from Aqua Bridge: 123456" with
            | Returned sid => {| code := 200; body := TestMessageSent sid |}
            | Threw message => server_error message
            end
        | _, _ => {| code := 500; body := ErrorOnly "Twilio not configured (check .env)" |}
        end
    end.

(** POST /verify-otp. *)
Definition verify_otp (phone code_in : string) : Response :=
  if negb (Js.truthy phone) || negb (Js.truthy code_in) then
    {| code := 400; body := ErrorOnly "phone and code required" |}
  else
    match configured (TWILIO_VERIFY_SID env), twilioClient with
    | Some service, Some client =>
        match verificationChecks_create client service phone code_in with
        | Returned status =>
            {| code := 200;
               body := VerificationChecked (String.eqb status "approved") status |}
        | Threw message => server_error message
        end
    | _, _ => {| code := 400; body := ErrorOnly "Verify service not configured" |}
    end.

End Routes.

End TwilioServer.

(** ** components/LoginScreen.tsx *)

Module LoginScreen.

(** The text typed into the form is a sequence of UTF-16 code units, which
    is what the regular expressions and [length] work on. *)
Definition units (s : string) : list N := map N_of_ascii (list_ascii_of_string s).

(** [\s]: white space and line terminators. *)
Definition is_space (c : N) : bool :=
  existsb (N.eqb c)
    [9; 10; 11; 12; 13; 32; 160; 5760; 8232; 8233; 8239; 8287; 12288; 65279]%N
  || (8192 <=? c)%N && (c <=? 8202)%N.

(** [\d]. *)
Definition is_digit (c : N) : bool := (48 <=? c)%N && (c <=? 57)%N.

(** [s.replace(/\s+/g, '')] and [s.replace(/\D/g, '')]. *)
Definition remove_spaces (s : list N) : list N := List.filter (fun c => negb (is_space c)) s.
Definition digits_only (s : list N) : list N := List.filter is_digit s.

(** [s.startsWith(p)]. *)
Fixpoint startsWith (s p : list N) {struct p} : bool :=
  match p, s with
  | [], _ => true
  | _ :: _, [] => false
  | b :: p', a :: s' => N.eqb a b && startsWith s' p'
  end.

(** [s.trim()]. *)
Fixpoint trimStart (s : list N) : list N :=
  match s with
  | c :: rest => if is_space c then trimStart rest else s
  | [] => []
  end.

Definition trim (s : list N) : list N := rev (trimStart (rev (trimStart s))).

Definition normalizePhone (raw : list N) : list N :=
  let cleaned := remove_spaces raw in
  if startsWith cleaned (units "+") then cleaned
  else
    let digits := digits_only cleaned in
    if Nat.eqb (length digits) 10 then (units "+91" ++ digits)%list
    else if (10 <? length digits)%nat && startsWith digits (units "91")
         then (units "+" ++ digits)%list
    else (units "+" ++ digits)%list.

(** [import.meta.env] as the component reads it. *)
Record Env := { MODE : string; VITE_OTP_SERVER_URL : option string }.

Definition apiBase (env : Env) : string :=
  if String.eqb (MODE env) "production" then Js.or_else (VITE_OTP_SERVER_URL env) ""
  else "http://localhost:4000".

Inductive Step := enterPhone | enterOtp.

(** The state of the component. *)
Record View := {
  phone : list N;
  otp : list N;
  step : Step;
  isSending : bool;
  isVerifying : bool;
  message : option string
}.

(** A request the component sends: the URL and the fields of the JSON
    body. *)
Record Request := { url : string; body_phone : list N; body_code : option (list N) }.

(** What the component reads of a JSON body: the truthiness of [success]
    and the fields [message] and [error]. *)
Record Data := { success : bool; d_message : option string; d_error : option string }.

(** [res.json()]: it rejects with an error message, or resolves with
    [null] or with an object. *)
Inductive Json :=
| Unparsable (error_message : string)
| Parsed (data : option Data).

(** [fetch]: it rejects with an error message or resolves with a
    response. *)
Inductive Fetched :=
| NetworkError (error_message : string)
| Answered (ok : bool) (json : Json).

(** The state a handler leaves, the request it sent and the phone it
    passed to [onLoginSuccess]. *)
Record Effects := { view : View; sent : option Request; loggedIn : option (list N) }.

Section Handlers.

Variable env : Env.

(** The message of the [TypeError] the engine throws for [data.success]
    when [data] is [null]. *)
Variable null_error : string.

(** The state when [sendOtp] has run through: the [finally] has reset
    [isSending]. *)
Definition sent_view (v : View) (st : Step) (msg : string) : View :=
  {| phone := phone v; otp := otp v; step := st;
     isSending := false; isVerifying := isVerifying v; message := Some msg |}.

(** The state when [verifyOtp] has run through: the [finally] has reset
    [isVerifying]. *)
Definition verified_view (v : View) (msg : string) : View :=
  {| phone := phone v; otp := otp v; step := step v;
     isSending := isSending v; isVerifying := false; message := Some msg |}.

(** [sendOtp]; [net] is what [fetch] does with the request. *)
Definition sendOtp (v : View) (net : Request -> Fetched) : Effects :=
  let cleaned := digits_only (phone v) in
  if (length cleaned <? 10)%nat then
    {| view := {| phone := phone v; otp := otp v; step := step v;
                  isSending := isSending v; isVerifying := isVerifying v;
                  message := Some "Please enter a valid phone number (10 digits)." |};
       sent := None; loggedIn := None |}
  else
    let formatted := normalizePhone (phone v) in
    let request := {| url := apiBase env ++ "/send-otp";
                      body_phone := formatted; body_code := None |} in
    let outcome :=
      match net request with
      | NetworkError msg => inr msg
      | Answered false json =>
          let err_error := match json with
                           | Parsed (Some data) => d_error data
                           | _ => None
                           end in
          inr (Js.or_else err_error "Failed to send OTP")
      | Answered true _ => inl tt
      end in
    {| view := match outcome with
               | inl _ => sent_view v enterOtp "OTP sent. Check your phone."
               | inr msg =>
                   sent_view v (step v)
                     (Js.or_else (Some msg) "Failed to send OTP. Try again.")
               end;
       sent := Some request; loggedIn := None |}.

(** [verifyOtp]. *)
Definition verifyOtp (v : View) (net : Request -> Fetched) : Effects :=
  let formatted := normalizePhone (phone v) in
  if (length (otp v) =? 0)%nat || (length (trim (otp v)) <? 3)%nat then
    {| view := {| phone := phone v; otp := otp v; step := step v;
                  isSending := isSending v; isVerifying := isVerifying v;
                  message := Some "Please enter the OTP received." |};
       sent := None; loggedIn := None |}
  else
    let request := {| url := apiBase env ++ "/verify-otp";
                      body_phone := formatted; body_code := Some (trim (otp v)) |} in
    let thrown msg :=
      {| view := verified_view v (Js.or_else (Some msg) "Failed to verify OTP. Try again.");
         sent := Some request; loggedIn := None |} in
    let rejected data_message :=
      {| view := verified_view v
                   (Js.or_else data_message "Incorrect OTP. Please try again.");
         sent := Some request; loggedIn := None |} in
    match net request with
    | NetworkError msg => thrown msg
    | Answered _ (Unparsable msg) => thrown msg
    | Answered true (Parsed None) => thrown null_error
    | Answered false (Parsed None) => rejected None
    | Answered ok (Parsed (Some data)) =>
        if ok && success data then
          {| view := verified_view v "Login successful. Welcome!";
             sent := Some request; loggedIn := Some formatted |}
        else rejected (d_message data)
    end.

End Handlers.

(** The bodies of the two servers as [verifyOtp] reads them. *)
Definition of_api_backend (resp : Server.Response) : Fetched :=
  Answered ((200 <=? Server.status resp) && (Server.status resp <=? 299))
    (Parsed (Some
       match Server.body resp with
       | Server.ErrorOnly e =>
           {| success := false; d_message := None; d_error := Some e |}
       | Server.Failure e =>
           {| success := false; d_message := None; d_error := Some e |}
       | Server.OtpGenerated m _ =>
           {| success := true; d_message := Some m; d_error := None |}
       | Server.Message m =>
           {| success := true; d_message := Some m; d_error := None |}
       | Server.SmsSent _ | Server.Status _ | Server.PriceUpdated _
       | Server.RequestCreated _ =>
           {| success := true; d_message := None; d_error := None |}
       | Server.Prices _ | Server.Requests _ =>
           {| success := false; d_message := None; d_error := None |}
       end)).

Definition of_twilio_backend (resp : TwilioServer.Response) : Fetched :=
  Answered ((200 <=? TwilioServer.code resp) && (TwilioServer.code resp <=? 299))
    (Parsed (Some
       match TwilioServer.body resp with
       | TwilioServer.ErrorOnly e =>
           {| success := false; d_message := None; d_error := Some e |}
       | TwilioServer.VerificationStarted _ | TwilioServer.TestMessageSent _ =>
           {| success := true; d_message := None; d_error := None |}
       | TwilioServer.VerificationChecked ok _ =>
           {| success := ok; d_message := None; d_error := None |}
       end)).

End LoginScreen.

(** ** More sample data *)

Module MoreSamples.

Import Types.

Definition pond_of_f1 : HarvestData :=
  {| farmerId := "f1"; h_grade := "A"; quantity := 10; location := "pond" |}.

Definition request_of_f1 : HarvestRequest :=
  {| data := pond_of_f1; req_id := "req_1700000000000_k3j9x0q2a";
     req_status := "Pending Approval"; timestamp := 1700000000000 |}.

(** A submission without a quantity. *)
Definition no_quantity : HarvestData :=
  {| farmerId := "f1"; h_grade := "A"; quantity := 0; location := "pond" |}.

(** A Twilio account whose Verify service approves the code 123456. *)
Definition twilio_account : TwilioServer.Twilio :=
  {| TwilioServer.verifications_create := fun _ _ => TwilioServer.Returned "pending";
     TwilioServer.verificationChecks_create :=
       fun _ _ code_in =>
         TwilioServer.Returned
           (if String.eqb code_in "123456" then "approved" else "pending");
     TwilioServer.messages_create := fun _ _ _ => TwilioServer.Returned "SM1" |}.

(** The login form with a ten-digit number and a code typed in. *)
Definition filled_form : LoginScreen.View :=
  {| LoginScreen.phone := LoginScreen.units "98765 43210";
     LoginScreen.otp := LoginScreen.units " 550000 ";
     LoginScreen.step := LoginScreen.enterOtp;
     LoginScreen.isSending := false;
     LoginScreen.isVerifying := false;
     LoginScreen.message := None |}.

Definition development : LoginScreen.Env :=
  {| LoginScreen.MODE := "development"; LoginScreen.VITE_OTP_SERVER_URL := None |}.

End MoreSamples.

(** * Properties *)

(** ** JavaScript helpers *)

Section JsFacts.

Lemma truthy_nonempty (s : string) : Js.truthy s = true <-> s <> "".
Proof.
  unfold Js.truthy.
  destruct (String.eqb_spec s ""); simpl; split; intros; congruence.
Qed.

(** The decimal text of an integer is never empty, so it is truthy. *)
Lemma toString_truthy (n : Z) : Js.truthy (Js.toString n) = true.
Proof.
  unfold Js.toString.
  destruct (Z.to_int n) as [u | u]; destruct u; reflexivity.
Qed.

Lemma eqb_neq_false (a b : string) : a <> b -> String.eqb a b = false.
Proof. intros H. now apply String.eqb_neq. Qed.

End JsFacts.

(** ** The OTP life cycle *)

Section OtpFacts.

Import Server.

Variable twilioClient : option (SmsMessage -> SmsResult).
Variable TWILIO_PHONE : option string.

(** Every generated code passes the presence check of /verify-otp. *)
Lemma genOtp_truthy (random : Q) : Js.truthy (genOtp random) = true.
Proof. apply toString_truthy. Qed.

(** What /send-otp leaves in the store, whatever the provider does. *)
Lemma send_otp_store (store : gmap string OtpEntry) (phone : string) (now : Z) (random : Q) :
  Js.truthy phone = true ->
  (send_otp twilioClient TWILIO_PHONE store phone now random).1
  = <[phone := {| code := genOtp random; expiresAt := now + 5 * 60 * 1000 |}]> store.
Proof.
  intros Hp. unfold send_otp. rewrite Hp. simpl.
  destruct twilioClient as [client |]; [| reflexivity].
  destruct (client _); reflexivity.
Qed.

Lemma verify_otp_absent (store : gmap string OtpEntry) (phone code_in : string) (now : Z) :
  Js.truthy phone = true -> Js.truthy code_in = true ->
  store !! phone = None ->
  verify_otp store phone code_in now = (store, NotFound).
Proof.
  intros Hp Hc Hnone. unfold verify_otp. rewrite Hp, Hc, Hnone. reflexivity.
Qed.

Lemma verify_otp_expired (store : gmap string OtpEntry) (phone code_in : string)
    (entry : OtpEntry) (now : Z) :
  Js.truthy phone = true -> Js.truthy code_in = true ->
  store !! phone = Some entry ->
  expiresAt entry < now ->
  verify_otp store phone code_in now = (delete phone store, Expired).
Proof.
  intros Hp Hc Hentry Hlate. unfold verify_otp. rewrite Hp, Hc, Hentry. simpl.
  apply Z.ltb_lt in Hlate. rewrite Hlate. reflexivity.
Qed.

Lemma verify_otp_match (store : gmap string OtpEntry) (phone : string)
    (entry : OtpEntry) (now : Z) :
  Js.truthy phone = true -> Js.truthy (code entry) = true ->
  store !! phone = Some entry ->
  now <= expiresAt entry ->
  verify_otp store phone (code entry) now = (delete phone store, Verified).
Proof.
  intros Hp Hc Hentry Hlive. unfold verify_otp. rewrite Hp, Hc, Hentry. simpl.
  assert ((expiresAt entry <? now) = false) as Hnow by (apply Z.ltb_ge; lia).
  rewrite Hnow.
  rewrite String.eqb_refl. reflexivity.
Qed.

Lemma verify_otp_mismatch (store : gmap string OtpEntry) (phone code_in : string)
    (entry : OtpEntry) (now : Z) :
  Js.truthy phone = true -> Js.truthy code_in = true ->
  store !! phone = Some entry ->
  now <= expiresAt entry ->
  code entry <> code_in ->
  verify_otp store phone code_in now = (store, Mismatch).
Proof.
  intros Hp Hc Hentry Hlive Hne. unfold verify_otp. rewrite Hp, Hc, Hentry. simpl.
  assert ((expiresAt entry <? now) = false) as Hnow by (apply Z.ltb_ge; lia).
  rewrite Hnow.
  rewrite (eqb_neq_false _ _ Hne). reflexivity.
Qed.

(** Without an entry for the phone no request is accepted, whatever it
    carries, and the store stays as it is. *)
Lemma verify_otp_absent_rejects (store : gmap string OtpEntry) (phone code_in : string)
    (now : Z) :
  store !! phone = None ->
  (verify_otp store phone code_in now).1 = store
  /\ (verify_otp store phone code_in now).2 <> Verified.
Proof.
  intros Hnone. unfold verify_otp. rewrite Hnone.
  destruct (negb (Js.truthy phone) || negb (Js.truthy code_in)); simpl;
    split; [reflexivity | discriminate | reflexivity | discriminate].
Qed.

(** C1.  A verify for a phone that has no stored entry (in particular
    against the empty store, before any send) answers NotFound and leaves
    the store as it is.  After a send has stored a code, a verify with that
    code no later than [expiresAt] answers Verified and deletes the entry,
    and a further verify with the same code, at any time, answers NotFound.
    The phone and the submitted code are present, as the route requires of
    every request before it looks at the store. *)
Theorem otp_verify_single_use
    (absent store : gmap string OtpEntry) (phone code_in : string)
    (t0 t_send t1 t2 : Z) (random : Q) :
  Js.truthy phone = true ->
  Js.truthy code_in = true ->
  absent !! phone = None ->
  t1 <= t_send + 5 * 60 * 1000 ->
  verify_otp ∅ phone code_in t0 = (∅, NotFound)
  /\ verify_otp absent phone code_in t0 = (absent, NotFound)
  /\ let sent := (send_otp twilioClient TWILIO_PHONE store phone t_send random).1 in
     let consumed := (verify_otp sent phone (genOtp random) t1).1 in
     sent !! phone = Some {| code := genOtp random; expiresAt := t_send + 5 * 60 * 1000 |}
     /\ verify_otp sent phone (genOtp random) t1 = (delete phone sent, Verified)
     /\ consumed !! phone = None
     /\ verify_otp consumed phone (genOtp random) t2 = (consumed, NotFound).
Proof.
  intros Hp Hc Habsent Hlive.
  split; [apply verify_otp_absent; [assumption | assumption | apply lookup_empty] |].
  split; [apply verify_otp_absent; assumption |].
  cbv zeta. rewrite send_otp_store by assumption.
  set (entry := {| code := genOtp random; expiresAt := t_send + 5 * 60 * 1000 |}).
  assert (Hverify : verify_otp (<[phone := entry]> store) phone (genOtp random) t1
                    = (delete phone (<[phone := entry]> store), Verified)).
  { apply (verify_otp_match _ phone entry t1);
      [assumption | apply genOtp_truthy | apply lookup_insert_eq | exact Hlive]. }
  rewrite Hverify. simpl.
  split; [apply lookup_insert_eq |].
  split; [reflexivity |].
  split; [apply lookup_delete_eq |].
  apply verify_otp_absent; [assumption | apply genOtp_truthy | apply lookup_delete_eq].
Qed.

(** C4.  For a phone with a stored entry, a verify at a time after the
    entry's [expiresAt] answers Expired and deletes the entry, whether or
    not the submitted code is the stored one; for an entry written by a
    send at [t_send] that is any time after [t_send] plus five minutes. *)
Theorem otp_verify_after_expiry
    (store store0 : gmap string OtpEntry) (phone code_in : string)
    (entry : OtpEntry) (now t_send now' : Z) (random : Q) :
  Js.truthy phone = true ->
  Js.truthy code_in = true ->
  store !! phone = Some entry ->
  expiresAt entry < now ->
  t_send + 5 * 60 * 1000 < now' ->
  verify_otp store phone code_in now = (delete phone store, Expired)
  /\ (verify_otp store phone code_in now).1 !! phone = None
  /\ let sent := (send_otp twilioClient TWILIO_PHONE store0 phone t_send random).1 in
     verify_otp sent phone code_in now' = (delete phone sent, Expired)
     /\ verify_otp sent phone (genOtp random) now' = (delete phone sent, Expired).
Proof.
  intros Hp Hc Hentry Hlate Hlate'.
  rewrite (verify_otp_expired store phone code_in entry now) by assumption.
  split; [reflexivity |].
  split; [apply lookup_delete_eq |].
  cbv zeta. rewrite send_otp_store by assumption.
  set (sent := {| code := genOtp random; expiresAt := t_send + 5 * 60 * 1000 |}).
  split.
  - apply (verify_otp_expired _ phone code_in sent now');
      [assumption | assumption | apply lookup_insert_eq | exact Hlate'].
  - apply (verify_otp_expired _ phone (genOtp random) sent now');
      [assumption | apply genOtp_truthy | apply lookup_insert_eq | exact Hlate'].
Qed.

(** C5, as amended.  After a second send has replaced the entry of a phone
    with a different code, a verify that submits the replaced code no later
    than the new [expiresAt] answers Mismatch, and the new entry stays. *)
Theorem otp_resend_replaces_code
    (store : gmap string OtpEntry) (phone : string)
    (t1 t2 now : Z) (random1 random2 : Q) :
  Js.truthy phone = true ->
  genOtp random2 <> genOtp random1 ->
  now <= t2 + 5 * 60 * 1000 ->
  let first := (send_otp twilioClient TWILIO_PHONE store phone t1 random1).1 in
  let second := (send_otp twilioClient TWILIO_PHONE first phone t2 random2).1 in
  first !! phone = Some {| code := genOtp random1; expiresAt := t1 + 5 * 60 * 1000 |}
  /\ second !! phone = Some {| code := genOtp random2; expiresAt := t2 + 5 * 60 * 1000 |}
  /\ verify_otp second phone (genOtp random1) now = (second, Mismatch).
Proof.
  intros Hp Hne Hlive. cbv zeta.
  rewrite !send_otp_store by assumption.
  split; [apply lookup_insert_eq |].
  split; [apply lookup_insert_eq |].
  apply (verify_otp_mismatch _ phone (genOtp random1)
           {| code := genOtp random2; expiresAt := t2 + 5 * 60 * 1000 |} now);
    [assumption | apply genOtp_truthy | apply lookup_insert_eq | exact Hlive | exact Hne].
Qed.

End OtpFacts.

Section OtpDelivery.

Import Server.

Variable client : SmsMessage -> SmsResult.
Variable TWILIO_PHONE : option string.

(** C6.  When the provider rejects the message, /send-otp answers 500 with
    [success: false], not a success; the entry it wrote before calling the
    provider is in the store, and a verify with the generated code no later
    than [expiresAt] is accepted. *)
Theorem otp_delivery_failure_keeps_entry
    (store : gmap string OtpEntry) (phone : string) (t_send now : Z) (random : Q) :
  Js.truthy phone = true ->
  client {| sms_body := "Your AquaBridge verification code is " ++ genOtp random;
            sms_from := TWILIO_PHONE;
            sms_to := phone |} = SendFailed ->
  now <= t_send + 5 * 60 * 1000 ->
  let sent := send_otp (Some client) TWILIO_PHONE store phone t_send random in
  sent.2 = status_json 500 (Failure "Failed to send SMS")
  /\ sent.1 !! phone
     = Some {| code := genOtp random; expiresAt := t_send + 5 * 60 * 1000 |}
  /\ verify_otp sent.1 phone (genOtp random) now = (delete phone sent.1, Verified).
Proof.
  intros Hp Hfail Hlive. cbv zeta.
  rewrite send_otp_store by assumption.
  split.
  - unfold send_otp. rewrite Hp. simpl. rewrite Hfail. reflexivity.
  - split; [apply lookup_insert_eq |].
    apply (verify_otp_match _ phone
             {| code := genOtp random; expiresAt := t_send + 5 * 60 * 1000 |} now);
      [assumption | apply genOtp_truthy | apply lookup_insert_eq | exact Hlive].
Qed.

End OtpDelivery.

Section OtpExamples.

Import Server.

Lemma otp_verify_single_use_witness :
  Js.truthy "+919876543210" = true
  /\ Js.truthy "123456" = true
  /\ (∅ : gmap string OtpEntry) !! "+919876543210" = None
  /\ 1000 <= 0 + 5 * 60 * 1000
  /\ verify_otp ∅ "+919876543210" "123456" 0 = (∅, NotFound).
Proof.
  split; [reflexivity |]. split; [reflexivity |].
  split; [reflexivity |]. split; [lia |].
  apply (otp_verify_single_use None None ∅ ∅ "+919876543210" "123456"
           0 0 1000 2000 (1 # 2));
    [reflexivity | reflexivity | reflexivity | lia].
Defined.

Lemma otp_verify_after_expiry_witness :
  let store : gmap string OtpEntry :=
    {[ "+919876543210" := {| code := "123456"; expiresAt := 300000 |} ]} in
  verify_otp store "+919876543210" "654321" 300001
  = (delete "+919876543210" store, Expired).
Proof.
  apply (otp_verify_after_expiry None None
           {[ "+919876543210" := {| code := "123456"; expiresAt := 300000 |} ]}
           ∅ "+919876543210" "654321"
           {| code := "123456"; expiresAt := 300000 |} 300001 0 300001 (1 # 2));
    [reflexivity | reflexivity | reflexivity | simpl; lia | lia].
Defined.

(** C5 as stated fails.  The second send may draw the code of the first,
    and then the replaced code is the stored one and is accepted; and with
    two different codes, a verify after the new [expiresAt] answers Expired,
    not Mismatch. *)
Lemma otp_resend_same_code_accepted :
  let phone := "+919876543210" in
  let first := (send_otp None None ∅ phone 1000 (1 # 2)).1 in
  let same := (send_otp None None first phone 2000 (1 # 2)).1 in
  let other := (send_otp None None first phone 2000 (1 # 4)).1 in
  (verify_otp same phone (genOtp (1 # 2)) 3000).2 = Verified
  /\ (verify_otp same phone (genOtp (1 # 2)) 3000).2 <> Mismatch
  /\ (verify_otp other phone (genOtp (1 # 2)) 302001).2 = Expired
  /\ (verify_otp other phone (genOtp (1 # 2)) 302001).2 <> Mismatch.
Proof.
  vm_compute. repeat split; discriminate.
Qed.

Lemma otp_resend_replaces_code_witness :
  let phone := "+919876543210" in
  let first := (send_otp None None ∅ phone 1000 (1 # 2)).1 in
  let second := (send_otp None None first phone 2000 (1 # 4)).1 in
  verify_otp second phone (genOtp (1 # 2)) 3000 = (second, Mismatch).
Proof.
  apply (otp_resend_replaces_code None None ∅ "+919876543210" 1000 2000 3000
           (1 # 2) (1 # 4));
    [reflexivity | vm_compute; discriminate | lia].
Defined.

Lemma otp_delivery_failure_keeps_entry_witness :
  let sent := send_otp (Some (fun _ => SendFailed)) None ∅ "+919876543210" 1000 (1 # 2) in
  sent.2 = status_json 500 (Failure "Failed to send SMS")
  /\ verify_otp sent.1 "+919876543210" "550000" 2000
     = (delete "+919876543210" sent.1, Verified).
Proof.
  pose proof (otp_delivery_failure_keeps_entry (fun _ => SendFailed) None ∅
                "+919876543210" 1000 2000 (1 # 2)) as H.
  cbv zeta in H.
  destruct H as (Hresp & _ & Hverify); [reflexivity | reflexivity | lia |].
  split; [exact Hresp | exact Hverify].
Defined.

End OtpExamples.

(** ** Harvest requests on the server *)

Section HarvestFacts.

Import Types Server.

Lemma insert_desc_In (x y : HarvestRequest) (l : list HarvestRequest) :
  In y (insert_desc x l) <-> y = x \/ In y l.
Proof.
  induction l as [| z rest IH]; simpl.
  - intuition.
  - destruct (timestamp z <? timestamp x); simpl; rewrite ?IH; intuition.
Qed.

Lemma insert_desc_sorted (x : HarvestRequest) (l : list HarvestRequest) :
  StronglySorted newer_first l -> StronglySorted newer_first (insert_desc x l).
Proof.
  induction 1 as [| z rest Hsorted IH Hz]; simpl.
  - repeat constructor.
  - destruct (Z.ltb_spec (timestamp z) (timestamp x)) as [Hlt | Hge].
    + constructor; [constructor; assumption |].
      constructor; [unfold newer_first; lia |].
      apply List.Forall_forall. intros a Ha.
      rewrite List.Forall_forall in Hz. specialize (Hz a Ha).
      unfold newer_first in *. lia.
    + constructor; [exact IH |].
      apply List.Forall_forall. intros a Ha.
      apply insert_desc_In in Ha. destruct Ha as [-> | Ha].
      * unfold newer_first. lia.
      * rewrite List.Forall_forall in Hz. apply Hz, Ha.
Qed.

Lemma fold_insert_desc_In (y : HarvestRequest) (l acc : list HarvestRequest) :
  In y (fold_left (fun acc x => insert_desc x acc) l acc) <-> In y l \/ In y acc.
Proof.
  revert acc. induction l as [| x rest IH]; intros acc; simpl.
  - intuition.
  - rewrite IH, insert_desc_In. intuition.
Qed.

Lemma fold_insert_desc_sorted (l acc : list HarvestRequest) :
  StronglySorted newer_first acc ->
  StronglySorted newer_first (fold_left (fun acc x => insert_desc x acc) l acc).
Proof.
  revert acc. induction l as [| x rest IH]; intros acc Hacc; simpl.
  - exact Hacc.
  - apply IH, insert_desc_sorted, Hacc.
Qed.

(** Sorting neither drops nor invents a request. *)
Lemma sort_desc_In (y : HarvestRequest) (l : list HarvestRequest) :
  In y (sort_desc l) <-> In y l.
Proof. unfold sort_desc. rewrite fold_insert_desc_In. simpl. intuition. Qed.

Lemma sort_desc_sorted (l : list HarvestRequest) :
  StronglySorted newer_first (sort_desc l).
Proof. apply fold_insert_desc_sorted. constructor. Qed.

(** A listing holds exactly the stored requests its filter accepts. *)
Lemma list_harvest_requests_In (coll : list HarvestRequest) (q : option string)
    (r : HarvestRequest) :
  In r (list_harvest_requests coll q) <-> In r coll /\ harvest_filter q r = true.
Proof.
  unfold list_harvest_requests, find. rewrite sort_desc_In. apply List.filter_In.
Qed.

Lemma harvest_filter_by_id (f : string) (r : HarvestRequest) :
  Js.truthy f = true ->
  harvest_filter (Some f) r = String.eqb (farmerId (data r)) f.
Proof. intros Hf. unfold harvest_filter. rewrite Hf. simpl. rewrite Hf. reflexivity. Qed.

(** C7.  A submission that carries a farmer id, a grade and a quantity is
    answered 201 and stores one record whose status is "Pending Approval"
    and whose timestamp is the clock reading of the submission, so not
    after any later reading.  The listing filtered by the submitter's id
    contains the record, the listing filtered by any other id does not, and
    every listing is ordered by timestamp, newest first. *)
Theorem harvest_submit_then_list
    (coll : list HarvestRequest) (data_in : HarvestData)
    (now_id now later : Z) (suffix other : string) :
  Js.truthy (farmerId data_in) = true ->
  Js.truthy (h_grade data_in) = true ->
  Js.truthy_num (quantity data_in) = true ->
  now <= later ->
  Js.truthy other = true ->
  other <> farmerId data_in ->
  let newReq := {| data := data_in;
                   req_id := "req_" ++ Js.toString now_id ++ "_" ++ suffix;
                   req_status := "Pending Approval";
                   timestamp := now |} in
  let stored := (post_harvest_requests coll data_in now_id now suffix).1 in
  post_harvest_requests coll data_in now_id now suffix
  = ((coll ++ [newReq])%list, status_json 201 (RequestCreated newReq))
  /\ req_status newReq = "Pending Approval"
  /\ timestamp newReq <= later
  /\ In newReq (list_harvest_requests stored (Some (farmerId data_in)))
  /\ ~ In newReq (list_harvest_requests stored (Some other))
  /\ (forall q, StronglySorted newer_first (list_harvest_requests stored q))
  /\ (forall q, get_harvest_requests stored q
                = json (Requests (list_harvest_requests stored q))).
Proof.
  intros Hf Hg Hq Hlater Hother Hne. cbv zeta.
  assert (Hpost : post_harvest_requests coll data_in now_id now suffix
                  = ((coll ++ [ {| data := data_in;
                                   req_id := "req_" ++ Js.toString now_id ++ "_" ++ suffix;
                                   req_status := "Pending Approval";
                                   timestamp := now |} ])%list,
                     status_json 201
                       (RequestCreated {| data := data_in;
                                          req_id := "req_" ++ Js.toString now_id ++ "_" ++ suffix;
                                          req_status := "Pending Approval";
                                          timestamp := now |}))).
  { unfold post_harvest_requests. rewrite Hf, Hg, Hq. reflexivity. }
  rewrite Hpost. simpl fst.
  split; [reflexivity |].
  split; [reflexivity |].
  split; [simpl; lia |].
  split.
  - apply list_harvest_requests_In. split.
    + apply in_or_app. right. left. reflexivity.
    + rewrite harvest_filter_by_id by assumption. simpl. apply String.eqb_refl.
  - split.
    + intros Hin. apply list_harvest_requests_In in Hin. destruct Hin as [_ Hfilter].
      rewrite harvest_filter_by_id in Hfilter by assumption. simpl in Hfilter.
      apply String.eqb_eq in Hfilter. congruence.
    + split; intros q; [apply sort_desc_sorted | reflexivity].
Qed.

End HarvestFacts.

Lemma harvest_submit_then_list_witness :
  let f1 := {| Types.farmerId := "f1"; Types.h_grade := "A";
               Types.quantity := 10; Types.location := "pond" |} in
  let stored := (Server.post_harvest_requests [] f1 1700000000000 1700000000000 "k3j9x0q2a").1 in
  (exists r, Server.list_harvest_requests stored (Some "f1") = [r]
             /\ Types.req_status r = "Pending Approval")
  /\ Server.list_harvest_requests stored (Some "f2") = [].
Proof.
  pose proof (harvest_submit_then_list []
                {| Types.farmerId := "f1"; Types.h_grade := "A";
                   Types.quantity := 10; Types.location := "pond" |}
                1700000000000 1700000000000 1700000000001 "k3j9x0q2a" "f2") as H.
  cbv zeta in H.
  destruct H as (_ & _ & _ & _ & _ & _ & _);
    [reflexivity | reflexivity | reflexivity | lia | reflexivity | discriminate |].
  split; [eexists; split; reflexivity | reflexivity].
Defined.

(** ** The client facade *)

Section FacadeFacts.

Import Types ApiService.
Local Open Scope promise_scope.

Variable MOCK_SHRIMP_PRICES : list ShrimpPrice.

(** No environment leaves the base address empty: unset or empty variables
    fall through to the default. *)
Lemma API_BASE_truthy (env : Env) : Js.truthy (API_BASE env) = true.
Proof.
  unfold API_BASE, Js.or_else.
  destruct (VITE_API_BASE_URL env) as [u |]; [destruct (Js.truthy u) eqn:Hu; [exact Hu |] |];
    (destruct (VITE_API_BASE env) as [b |]; [destruct (Js.truthy b) eqn:Hb; [exact Hb |] |]);
    reflexivity.
Qed.

Lemma getPricesDb_run (w : World) :
  getPricesDb MOCK_SHRIMP_PRICES w
  = (Resolved (local_prices MOCK_SHRIMP_PRICES (localStorage w)),
     with_prices (local_prices MOCK_SHRIMP_PRICES (localStorage w)) w).
Proof.
  destruct w as [[h p s] f t].
  unfold getPricesDb, local_prices, with_prices, bind, getStorage. simpl.
  destruct p as [db |]; simpl; [reflexivity |].
  rewrite map_id. reflexivity.
Qed.

Lemma savePricesDb_run (db : list ShrimpPrice) (w : World) :
  savePricesDb db w = (Resolved tt, with_prices db w).
Proof. reflexivity. Qed.

(** With a base address and a failing remote call, [tryFetch] makes the
    call and then hands out what the fallback resolves with. *)
Lemma tryFetch_falls_back {T} (base path : string) (remote : Remote T)
    (options : option RequestInit) (fb : M T) (w w' : World) (a : T) :
  Js.truthy base = true ->
  remote_fails remote (build_url base path) options = true ->
  fb (record_fetch (build_url base path) options w) = (Resolved a, w') ->
  tryFetch base remote path options (Some fb) w = (Resolved (Some a), w').
Proof.
  intros Hbase Hfails Hfb.
  unfold tryFetch. rewrite Hbase. simpl.
  unfold remote_fails in Hfails.
  unfold try_catch, bind, fetch.
  destruct (remote (build_url base path) options) as [err | res]; simpl.
  - rewrite Hfb. reflexivity.
  - destruct (ok res); simpl in *.
    + destruct (parsed res); [discriminate |]. rewrite Hfb. reflexivity.
    + rewrite Hfb. reflexivity.
Qed.

(** A network error followed by a throwing fallback: the network error is
    what the caller sees. *)
Lemma tryFetch_network_error_fallback_throws {T} (base path : string)
    (remote : Remote T) (options : option RequestInit) (fb : M T)
    (w w' : World) (err e : Error) :
  Js.truthy base = true ->
  remote (build_url base path) options = NetworkError err ->
  fb (record_fetch (build_url base path) options w) = (Rejected e, w') ->
  tryFetch base remote path options (Some fb) w = (Rejected err, w').
Proof.
  intros Hbase Hremote Hfb.
  unfold tryFetch. rewrite Hbase. simpl.
  unfold try_catch, bind, fetch. rewrite Hremote. simpl.
  rewrite Hfb. reflexivity.
Qed.

(** An answer that is not usable (non-success status, or no parsable body)
    followed by a throwing fallback: the exception of the fallback is caught
    by the [catch] meant for network errors, the fallback runs a second
    time, and when it throws again the caller sees the first exception of
    the fallback. *)
Lemma tryFetch_bad_answer_fallback_throws {T} (base path : string)
    (remote : Remote T) (options : option RequestInit) (fb : M T)
    (w w1 w2 : World) (res : HttpResponse T) (e1 e2 : Error) :
  Js.truthy base = true ->
  remote (build_url base path) options = Answered res ->
  negb (ok res) || match parsed res with Some _ => false | None => true end = true ->
  fb (record_fetch (build_url base path) options w) = (Rejected e1, w1) ->
  fb w1 = (Rejected e2, w2) ->
  tryFetch base remote path options (Some fb) w = (Rejected e1, w2).
Proof.
  intros Hbase Hremote Hbad Hfb1 Hfb2.
  unfold tryFetch. rewrite Hbase. simpl.
  unfold try_catch, bind, fetch. rewrite Hremote. simpl.
  destruct (ok res); simpl in *.
  - destruct (parsed res); [discriminate |].
    rewrite Hfb1. rewrite Hfb2. reflexivity.
  - rewrite Hfb1. rewrite Hfb2. reflexivity.
Qed.

(** With any base address the environment can produce, [getMarketPrices]
    makes exactly one network call, whatever the remote side answers. *)
Lemma getMarketPrices_fetches_once (env : Env) (remote : Remote PricesReply) (w : World) :
  fetched (getMarketPrices MOCK_SHRIMP_PRICES (API_BASE env) remote w).2
  = (fetched w ++ [(build_url (API_BASE env) "/market-prices", None)])%list.
Proof.
  unfold getMarketPrices, getMarketPrices_fallback, tryFetch.
  rewrite API_BASE_truthy. simpl.
  unfold try_catch, bind, fetch, withLatency, ret.
  destruct (remote _ None) as [err | res]; simpl.
  - rewrite getPricesDb_run. reflexivity.
  - destruct (ok res); simpl.
    + destruct (parsed res) as [[prices | success [prices |]] |]; simpl;
        rewrite ?getPricesDb_run; reflexivity.
    + rewrite getPricesDb_run. reflexivity.
Qed.

Lemma getMarketPrices_fallback_run (w : World) :
  getMarketPrices_fallback MOCK_SHRIMP_PRICES w
  = (Resolved (PricesArray (local_prices MOCK_SHRIMP_PRICES (localStorage w))),
     after_latency (with_prices (local_prices MOCK_SHRIMP_PRICES (localStorage w)) w)).
Proof.
  unfold getMarketPrices_fallback, bind. rewrite getPricesDb_run. reflexivity.
Qed.

(** The branch of [tryFetch] for an empty base address: no network call,
    the price list of local persistence.  No environment reaches it
    ([API_BASE_truthy]). *)
Lemma getMarketPrices_empty_base (remote : Remote PricesReply) (w : World) :
  getMarketPrices MOCK_SHRIMP_PRICES "" remote w
  = (Resolved (local_prices MOCK_SHRIMP_PRICES (localStorage w)),
     after_latency (with_prices (local_prices MOCK_SHRIMP_PRICES (localStorage w)) w)).
Proof.
  unfold getMarketPrices, tryFetch, bind. simpl.
  rewrite getMarketPrices_fallback_run. reflexivity.
Qed.

(** C2, as amended.  With neither variable set the base address is the
    default [http://localhost:4000], and [getMarketPrices] makes one
    network call, to [http://localhost:4000/market-prices]; when that call
    fails it resolves with the price list of local persistence, which is the
    seeded default list when none is stored, and the list is stored. *)
Theorem getMarketPrices_unset_base (remote : Remote PricesReply) (w : World) :
  remote_fails remote "http://localhost:4000/market-prices" None = true ->
  let env := {| VITE_API_BASE_URL := None; VITE_API_BASE := None |} in
  let run := getMarketPrices MOCK_SHRIMP_PRICES (API_BASE env) remote w in
  API_BASE env = "http://localhost:4000"
  /\ fetched run.2 = (fetched w ++ [("http://localhost:4000/market-prices", None)])%list
  /\ run.1 = Resolved (match market_prices (localStorage w) with
                       | Some db => db
                       | None => MOCK_SHRIMP_PRICES
                       end)
  /\ market_prices (localStorage run.2)
     = Some (match market_prices (localStorage w) with
             | Some db => db
             | None => MOCK_SHRIMP_PRICES
             end).
Proof.
  intros Hfails. cbv zeta.
  split; [reflexivity |].
  split; [apply (getMarketPrices_fetches_once
                   {| VITE_API_BASE_URL := None; VITE_API_BASE := None |}) |].
  unfold getMarketPrices, bind.
  rewrite (tryFetch_falls_back
             (API_BASE {| VITE_API_BASE_URL := None; VITE_API_BASE := None |})
             "/market-prices" remote None
             (getMarketPrices_fallback MOCK_SHRIMP_PRICES) w _ _
             (API_BASE_truthy _) Hfails (getMarketPrices_fallback_run _)).
  split; reflexivity.
Qed.

End FacadeFacts.

(** ** Market prices and market status, on both sides *)

Section ListFacts.

Context {A : Type} (f : A -> bool).

Lemma find_setFirst (u e : A) (coll : list A) :
  List.find f coll = Some e -> f u = true ->
  List.find f (Server.setFirst f (fun _ => u) coll) = Some u.
Proof.
  intros Hfind Hu. induction coll as [| d rest IH]; simpl in *; [discriminate |].
  destruct (f d) eqn:Hd; simpl.
  - rewrite Hu. reflexivity.
  - rewrite Hd. apply IH, Hfind.
Qed.

Lemma find_app_fresh (u : A) (coll : list A) :
  List.find f coll = None -> f u = true ->
  List.find f (coll ++ [u]) = Some u.
Proof.
  intros Hfind Hu. induction coll as [| d rest IH]; simpl in *.
  - rewrite Hu. reflexivity.
  - destruct (f d); [discriminate |]. apply IH, Hfind.
Qed.

Lemma findIndex_None (l : list A) :
  List.find f l = None -> Js.findIndex f l = None.
Proof.
  induction l as [| d rest IH]; simpl; [reflexivity |].
  destruct (f d); [discriminate |]. intros H. rewrite (IH H). reflexivity.
Qed.

(** [findIndex] finds the position of the row [find] returns, and writing a
    matching row there makes it the row [find] returns. *)
Lemma findIndex_Some (l : list A) (row : A) :
  List.find f l = Some row ->
  exists idx, Js.findIndex f l = Some idx
              /\ l !! idx = Some row
              /\ forall u, f u = true -> List.find f (<[idx := u]> l) = Some u.
Proof.
  induction l as [| d rest IH]; simpl; [discriminate |].
  destruct (f d) eqn:Hd.
  - intros [= ->]. exists O. repeat split. intros u Hu. simpl. rewrite Hu. reflexivity.
  - intros Hfind. destruct (IH Hfind) as (idx & Hidx & Hrow & Hset).
    exists (S idx). rewrite Hidx. repeat split; [exact Hrow |].
    intros u Hu. simpl. rewrite Hd. apply Hset, Hu.
Qed.

End ListFacts.

Section PriceFacts.

Import Types Server ApiService.
Local Open Scope promise_scope.

Variable MOCK_SHRIMP_PRICES : list ShrimpPrice.

(** PATCH /market-prices on a grade that has a row. *)
Lemma patch_market_prices_existing (coll : list ShrimpPrice) (grade_in : string)
    (p now : Z) (existing : ShrimpPrice) :
  Js.truthy grade_in = true ->
  price_of_grade grade_in coll = Some existing ->
  let updated := {| grade := grade_in; price := p;
                    previousPrice := Some (price existing); updatedAt := Some now |} in
  (patch_market_prices coll grade_in (Some p) now).2 = json (PriceUpdated updated)
  /\ price_of_grade grade_in (patch_market_prices coll grade_in (Some p) now).1
     = Some updated.
Proof.
  intros Hg Hfind. cbv zeta.
  unfold patch_market_prices, updateOne_upsert, findOne.
  unfold price_of_grade in Hfind. rewrite Hg, Hfind. simpl.
  split; [reflexivity |].
  apply (find_setFirst _ _ existing); [exact Hfind |].
  simpl. apply String.eqb_refl.
Qed.

(** PATCH /market-prices on a grade that has no row. *)
Lemma patch_market_prices_unknown (coll : list ShrimpPrice) (grade_in : string)
    (p now : Z) :
  Js.truthy grade_in = true ->
  price_of_grade grade_in coll = None ->
  patch_market_prices coll grade_in (Some p) now
  = ((coll ++ [ {| grade := grade_in; price := p;
                   previousPrice := None; updatedAt := Some now |} ])%list,
     json (PriceUpdated {| grade := grade_in; price := p;
                           previousPrice := None; updatedAt := Some now |})).
Proof.
  intros Hg Hfind.
  unfold patch_market_prices, updateOne_upsert, findOne, insertOne.
  unfold price_of_grade in Hfind. rewrite Hg, Hfind. reflexivity.
Qed.

(** The local fallback of [updateMarketPrice] on a grade that has a row. *)
Lemma updateMarketPrice_fallback_existing (grade_in : string) (p : Z)
    (row : ShrimpPrice) (w : World) :
  price_of_grade grade_in (local_prices MOCK_SHRIMP_PRICES (localStorage w)) = Some row ->
  let updated := {| grade := grade row; price := p;
                    previousPrice := Some (price row); updatedAt := updatedAt row |} in
  exists db,
    updateMarketPrice_fallback MOCK_SHRIMP_PRICES grade_in p w
    = (Resolved (PriceBare updated), after_latency (with_prices db w))
    /\ price_of_grade grade_in db = Some updated.
Proof.
  intros Hfind. cbv zeta.
  destruct (findIndex_Some _ _ _ Hfind) as (idx & Hidx & Hrow & Hset).
  apply find_some in Hfind. destruct Hfind as [_ Hgrade].
  eexists. split.
  - unfold updateMarketPrice_fallback, bind.
    rewrite getPricesDb_run, Hidx, Hrow, savePricesDb_run. reflexivity.
  - apply Hset. simpl. exact Hgrade.
Qed.

(** The local fallback of [updateMarketPrice] on a grade that has no row. *)
Lemma updateMarketPrice_fallback_unknown (grade_in : string) (p : Z) (w : World) :
  price_of_grade grade_in (local_prices MOCK_SHRIMP_PRICES (localStorage w)) = None ->
  updateMarketPrice_fallback MOCK_SHRIMP_PRICES grade_in p w
  = (Rejected (new_Error "Price for grade not found"),
     with_prices (local_prices MOCK_SHRIMP_PRICES (localStorage w)) w).
Proof.
  intros Hfind.
  unfold updateMarketPrice_fallback, bind.
  rewrite getPricesDb_run, (findIndex_None _ _ Hfind). reflexivity.
Qed.

(** [updateMarketPrice] against a failing remote call, on a grade that has a
    row in local persistence: the row is rewritten. *)
Lemma updateMarketPrice_local_existing (env : Env) (remote : Remote PriceReply)
    (grade_in : string) (p : Z) (row : ShrimpPrice) (w : World) :
  remote_fails remote (build_url (API_BASE env) "/market-prices")
    (Some {| method := "PATCH"; content_type := "application/json";
             req_body := GradePrice grade_in p |}) = true ->
  price_of_grade grade_in (local_prices MOCK_SHRIMP_PRICES (localStorage w)) = Some row ->
  stored_price grade_in
    (updateMarketPrice MOCK_SHRIMP_PRICES (API_BASE env) remote grade_in p w).2
  = Some {| grade := grade row; price := p;
            previousPrice := Some (price row); updatedAt := updatedAt row |}.
Proof.
  intros Hfails Hfind.
  set (opts := Some {| method := "PATCH"; content_type := "application/json";
                       req_body := GradePrice grade_in p |}) in *.
  destruct (updateMarketPrice_fallback_existing grade_in p row
              (record_fetch (build_url (API_BASE env) "/market-prices") opts w) Hfind)
    as (db & Hrun & Hdb).
  unfold updateMarketPrice, bind. fold opts.
  rewrite (tryFetch_falls_back _ _ _ _ _ _ _ _ (API_BASE_truthy env) Hfails Hrun).
  simpl. destruct (Js.truthy_num p); exact Hdb.
Qed.

End PriceFacts.

Section TwoImplementations.

Import Types Server ApiService.
Local Open Scope promise_scope.

Variable MOCK_SHRIMP_PRICES : list ShrimpPrice.

Lemma stored_price_local (grade_in : string) (row : ShrimpPrice) (w : World) :
  stored_price grade_in w = Some row ->
  price_of_grade grade_in (local_prices MOCK_SHRIMP_PRICES (localStorage w)) = Some row.
Proof.
  unfold stored_price, local_prices.
  destruct (market_prices (localStorage w)); [auto | discriminate].
Qed.

(** C8.  Updating the price of a grade that has a row stores a row with the
    new price and, as [previousPrice], the price the row held before.  On
    the server that is PATCH /market-prices; in the client it is
    [updateMarketPrice] writing to local persistence when the remote call
    fails.  A second update therefore records the first new price as
    previous. *)
Theorem price_update_shifts_previous
    (coll : list ShrimpPrice) (existing row : ShrimpPrice)
    (env : Env) (remote : Remote PriceReply) (w : World)
    (grade_in : string) (p1 p2 now1 now2 : Z) :
  Js.truthy grade_in = true ->
  price_of_grade grade_in coll = Some existing ->
  price_of_grade grade_in (local_prices MOCK_SHRIMP_PRICES (localStorage w)) = Some row ->
  remote_fails remote (build_url (API_BASE env) "/market-prices")
    (Some {| method := "PATCH"; content_type := "application/json";
             req_body := GradePrice grade_in p1 |}) = true ->
  remote_fails remote (build_url (API_BASE env) "/market-prices")
    (Some {| method := "PATCH"; content_type := "application/json";
             req_body := GradePrice grade_in p2 |}) = true ->
  let step1 := patch_market_prices coll grade_in (Some p1) now1 in
  let step2 := patch_market_prices step1.1 grade_in (Some p2) now2 in
  let local1 :=
    (updateMarketPrice MOCK_SHRIMP_PRICES (API_BASE env) remote grade_in p1 w).2 in
  let local2 :=
    (updateMarketPrice MOCK_SHRIMP_PRICES (API_BASE env) remote grade_in p2 local1).2 in
  price_of_grade grade_in step1.1
  = Some {| grade := grade_in; price := p1;
            previousPrice := Some (price existing); updatedAt := Some now1 |}
  /\ step1.2
     = json (PriceUpdated {| grade := grade_in; price := p1;
                             previousPrice := Some (price existing);
                             updatedAt := Some now1 |})
  /\ price_of_grade grade_in step2.1
     = Some {| grade := grade_in; price := p2;
               previousPrice := Some p1; updatedAt := Some now2 |}
  /\ stored_price grade_in local1
     = Some {| grade := grade row; price := p1;
               previousPrice := Some (price row); updatedAt := updatedAt row |}
  /\ stored_price grade_in local2
     = Some {| grade := grade row; price := p2;
               previousPrice := Some p1; updatedAt := updatedAt row |}.
Proof.
  intros Hg Hcoll Hlocal Hfails1 Hfails2. cbv zeta.
  destruct (patch_market_prices_existing coll grade_in p1 now1 existing Hg Hcoll)
    as [Hresp1 Hstored1].
  destruct (patch_market_prices_existing _ grade_in p2 now2 _ Hg Hstored1)
    as [_ Hstored2].
  pose proof (updateMarketPrice_local_existing MOCK_SHRIMP_PRICES env remote
                grade_in p1 row w Hfails1 Hlocal) as Hlocal1.
  pose proof (updateMarketPrice_local_existing MOCK_SHRIMP_PRICES env remote
                grade_in p2 _ _ Hfails2 (stored_price_local _ _ _ Hlocal1)) as Hlocal2.
  repeat split; assumption.
Qed.

(** C9.  For a grade that has no row, PATCH /market-prices answers with
    success and appends a row whose [previousPrice] is [null], while the
    local fallback of [updateMarketPrice], run on the same price list,
    throws "Price for grade not found". *)
Theorem unknown_grade_upsert_versus_throw
    (prices : list ShrimpPrice) (grade_in : string) (p now : Z) (w : World) :
  Js.truthy grade_in = true ->
  price_of_grade grade_in prices = None ->
  local_prices MOCK_SHRIMP_PRICES (localStorage w) = prices ->
  patch_market_prices prices grade_in (Some p) now
  = ((prices ++ [ {| grade := grade_in; price := p;
                     previousPrice := None; updatedAt := Some now |} ])%list,
     json (PriceUpdated {| grade := grade_in; price := p;
                           previousPrice := None; updatedAt := Some now |}))
  /\ price_of_grade grade_in (patch_market_prices prices grade_in (Some p) now).1
     = Some {| grade := grade_in; price := p;
               previousPrice := None; updatedAt := Some now |}
  /\ (updateMarketPrice_fallback MOCK_SHRIMP_PRICES grade_in p w).1
     = Rejected (new_Error "Price for grade not found").
Proof.
  intros Hg Hfind Hlocal.
  rewrite (patch_market_prices_unknown prices grade_in p now Hg Hfind).
  split; [reflexivity |]. split.
  - simpl. apply find_app_fresh; [exact Hfind |]. simpl. apply String.eqb_refl.
  - rewrite updateMarketPrice_fallback_unknown by (rewrite Hlocal; exact Hfind).
    reflexivity.
Qed.

(** C10.  Before the market status has been set the market reads as open:
    GET /market-status answers [status: true] when [app_meta] has no
    [market_status] document, and the client, when its remote call fails
    and nothing is stored under the local key, resolves with [true]. *)
Theorem market_status_defaults_to_open
    (app_meta : list MetaDoc) (env : Env) (remote : Remote StatusReply) (w : World) :
  findOne is_market_status app_meta = None ->
  market_status (localStorage w) = None ->
  remote_fails remote (build_url (API_BASE env) "/market-status") None = true ->
  get_market_status app_meta = json (Status true)
  /\ get_market_status [] = json (Status true)
  /\ (getMarketStatus_fallback w).1 = Resolved (StatusBare true)
  /\ (getMarketStatus (API_BASE env) remote w).1 = Resolved true.
Proof.
  intros Hdoc Hlocal Hfails.
  split; [unfold get_market_status; rewrite Hdoc; reflexivity |].
  split; [reflexivity |].
  assert (Hfb : forall w0, market_status (localStorage w0) = None ->
                  getMarketStatus_fallback w0
                  = (Resolved (StatusBare true), after_latency w0)).
  { intros w0 H0. unfold getMarketStatus_fallback, bind, getStorage, withLatency.
    rewrite H0. reflexivity. }
  split; [rewrite (Hfb w Hlocal); reflexivity |].
  unfold getMarketStatus, bind.
  rewrite (tryFetch_falls_back _ _ _ _ _ w _ _ (API_BASE_truthy env) Hfails
             (Hfb (record_fetch _ _ w) Hlocal)).
  reflexivity.
Qed.

End TwoImplementations.

(** ** Concrete runs of the client *)

Section FacadeExamples.

Import Types Server ApiService Sample.

(** C2 as stated fails: with the base address unset the facade calls
    [http://localhost:4000/market-prices], and resolves with what is
    answered there, here an empty list, not with the seeded defaults. *)
Lemma unset_base_still_calls_network :
  let run := getMarketPrices [premium 500 None] (API_BASE unset_env)
               no_prices_yet fresh_browser in
  fetched run.2 = [("http://localhost:4000/market-prices", None)]
  /\ fetched run.2 <> fetched fresh_browser
  /\ run.1 = Resolved []
  /\ run.1 <> Resolved [premium 500 None].
Proof.
  vm_compute. repeat split; discriminate.
Qed.

Lemma getMarketPrices_unset_base_witness :
  let run := getMarketPrices [premium 500 None] (API_BASE unset_env)
               offline fresh_browser in
  remote_fails (@offline PricesReply) "http://localhost:4000/market-prices" None = true
  /\ fetched run.2 = [("http://localhost:4000/market-prices", None)]
  /\ run.1 = Resolved [premium 500 None].
Proof.
  pose proof (getMarketPrices_unset_base [premium 500 None] offline fresh_browser) as H.
  cbv zeta in H.
  destruct H as (_ & Hfetched & Hresult & _); [reflexivity |].
  split; [reflexivity |]. split; [exact Hfetched | exact Hresult].
Defined.

(** C3 fails on the code.  The remote side answers 500 and the fallback of
    [updateMarketPrice] throws because the grade has no local row: the
    caller sees the exception of the fallback; there is no network
    error. *)
Theorem updateMarketPrice_http_error_unknown_grade :
  let run := updateMarketPrice [premium 500 None] (API_BASE unset_env)
               server_error "Jumbo" 700 fresh_browser in
  run.1 = Rejected (new_Error "Price for grade not found")
  /\ fetched run.2
     = [("http://localhost:4000/market-prices",
         Some {| method := "PATCH"; content_type := "application/json";
                 req_body := GradePrice "Jumbo" 700 |})].
Proof.
  vm_compute. split; reflexivity.
Qed.

(** The same with an answer whose body does not parse. *)
Lemma updateMarketPrice_unparsable_unknown_grade :
  (updateMarketPrice [premium 500 None] (API_BASE unset_env)
     not_json "Jumbo" 700 fresh_browser).1
  = Rejected (new_Error "Price for grade not found").
Proof. vm_compute. reflexivity. Qed.

(** With a network error the caller does see the network error. *)
Lemma updateMarketPrice_offline_unknown_grade :
  (updateMarketPrice [premium 500 None] (API_BASE unset_env)
     offline "Jumbo" 700 fresh_browser).1
  = Rejected {| name := "TypeError"; message := "Failed to fetch" |}.
Proof. vm_compute. reflexivity. Qed.

Lemma price_update_shifts_previous_witness :
  let step1 := patch_market_prices [premium 500 None] "Premium" (Some 550) 1000 in
  let step2 := patch_market_prices step1.1 "Premium" (Some 600) 2000 in
  let local1 :=
    (updateMarketPrice [premium 500 None] (API_BASE unset_env) offline
       "Premium" 550 fresh_browser).2 in
  let local2 :=
    (updateMarketPrice [premium 500 None] (API_BASE unset_env) offline
       "Premium" 600 local1).2 in
  price_of_grade "Premium" step1.1
  = Some {| grade := "Premium"; price := 550;
            previousPrice := Some 500; updatedAt := Some 1000 |}
  /\ price_of_grade "Premium" step2.1
     = Some {| grade := "Premium"; price := 600;
               previousPrice := Some 550; updatedAt := Some 2000 |}
  /\ stored_price "Premium" local1 = Some (premium 550 (Some 500))
  /\ stored_price "Premium" local2 = Some (premium 600 (Some 550)).
Proof.
  pose proof (price_update_shifts_previous [premium 500 None]
                [premium 500 None] (premium 500 None) (premium 500 None)
                unset_env offline fresh_browser "Premium" 550 600 1000 2000) as H.
  cbv zeta in H.
  destruct H as (H1 & _ & H2 & H3 & H4);
    [reflexivity | reflexivity | reflexivity | reflexivity | reflexivity |].
  repeat split; assumption.
Defined.

Lemma unknown_grade_upsert_versus_throw_witness :
  (patch_market_prices [premium 500 None] "Jumbo" (Some 700) 1000).2
  = json (PriceUpdated {| grade := "Jumbo"; price := 700;
                          previousPrice := None; updatedAt := Some 1000 |})
  /\ (updateMarketPrice_fallback [premium 500 None] "Jumbo" 700 fresh_browser).1
     = Rejected (new_Error "Price for grade not found").
Proof.
  pose proof (unknown_grade_upsert_versus_throw [premium 500 None]
                [premium 500 None] "Jumbo" 700 1000 fresh_browser) as H.
  destruct H as (Hserver & _ & Hclient); [reflexivity | reflexivity | reflexivity |].
  split; [rewrite Hserver; reflexivity | exact Hclient].
Defined.

Lemma market_status_defaults_to_open_witness :
  get_market_status [] = json (Status true)
  /\ (getMarketStatus (API_BASE unset_env) offline fresh_browser).1 = Resolved true.
Proof.
  pose proof (market_status_defaults_to_open [] unset_env offline fresh_browser) as H.
  destruct H as (Hserver & _ & _ & Hclient); [reflexivity | reflexivity | reflexivity |].
  split; [exact Hserver | exact Hclient].
Defined.

End FacadeExamples.

(** * Further properties *)

(** ** The OTP routes *)

Section OtpMore.

Import Server OtpRuns.

Variable twilioClient : option (SmsMessage -> SmsResult).
Variable TWILIO_PHONE : option string.

(** X1.  /verify-otp answers Verified only for a request that carries a phone
    and a code, when the store holds an entry for the phone with exactly
    that code and the request arrives no later than the entry's
    [expiresAt]; the entry is then gone. *)
Theorem otp_verified_only_for_live_matching_entry
    (store : gmap string OtpEntry) (phone code_in : string) (now : Z) :
  (verify_otp store phone code_in now).2 = Verified ->
  phone <> "" /\ code_in <> ""
  /\ (exists entry, store !! phone = Some entry
                    /\ code entry = code_in
                    /\ now <= expiresAt entry)
  /\ (verify_otp store phone code_in now).1 = delete phone store.
Proof.
  unfold verify_otp.
  destruct (Js.truthy phone) eqn:Hp; simpl; [| discriminate].
  destruct (Js.truthy code_in) eqn:Hc; simpl; [| discriminate].
  destruct (store !! phone) as [entry |]; [| discriminate].
  destruct (Z.ltb_spec (expiresAt entry) now) as [Hlate | Hlive]; [discriminate |].
  destruct (String.eqb_spec (code entry) code_in) as [Heq | Hne]; simpl;
    [| discriminate].
  intros _.
  split; [apply truthy_nonempty, Hp |].
  split; [apply truthy_nonempty, Hc |].
  split; [exists entry; auto | reflexivity].
Qed.

(** X2.  Neither OTP route touches the entry of another phone. *)
Theorem otp_routes_leave_other_phones
    (store : gmap string OtpEntry) (phone other code_in : string)
    (now : Z) (random : Q) :
  other <> phone ->
  (send_otp twilioClient TWILIO_PHONE store phone now random).1 !! other
  = store !! other
  /\ (verify_otp store phone code_in now).1 !! other = store !! other.
Proof.
  intros Hne. split.
  - unfold send_otp. destruct (Js.truthy phone); simpl; [| reflexivity].
    destruct twilioClient as [client |]; [destruct (client _) |]; simpl;
      apply lookup_insert_ne; congruence.
  - unfold verify_otp.
    destruct (negb (Js.truthy phone) || negb (Js.truthy code_in)); [reflexivity |].
    destruct (store !! phone) as [entry |]; [| reflexivity].
    destruct (expiresAt entry <? now); simpl; [apply lookup_delete_ne; congruence |].
    destruct (negb (String.eqb (code entry) code_in)); simpl;
      [reflexivity | apply lookup_delete_ne; congruence].
Qed.

(** A request that neither expires nor matches leaves the store as it is. *)
Lemma verify_otp_wrong_guess (store : gmap string OtpEntry) (phone code_in : string)
    (entry : OtpEntry) (now : Z) :
  store !! phone = Some entry ->
  code_in <> code entry ->
  now <= expiresAt entry ->
  (verify_otp store phone code_in now).1 = store.
Proof.
  intros Hentry Hne Hlive. unfold verify_otp.
  destruct (negb (Js.truthy phone) || negb (Js.truthy code_in)); [reflexivity |].
  rewrite Hentry.
  assert ((expiresAt entry <? now) = false) as Hnow by (apply Z.ltb_ge; lia).
  rewrite Hnow.
  rewrite (eqb_neq_false (code entry) code_in) by congruence. reflexivity.
Qed.

(** X3.  There is no lockout: any number of wrong guesses before expiry, empty
    ones included, leaves the entry in place, and the right code is still
    accepted afterwards. *)
Theorem otp_wrong_guesses_do_not_lock
    (store : gmap string OtpEntry) (phone : string) (entry : OtpEntry)
    (attempts : list (string * Z)) (now : Z) :
  Js.truthy phone = true ->
  Js.truthy (code entry) = true ->
  store !! phone = Some entry ->
  Forall (fun attempt => attempt.1 <> code entry /\ attempt.2 <= expiresAt entry)
    attempts ->
  now <= expiresAt entry ->
  verify_all store phone attempts = store
  /\ verify_otp (verify_all store phone attempts) phone (code entry) now
     = (delete phone store, Verified).
Proof.
  intros Hp Hc Hentry Hattempts Hlive.
  assert (Hsame : verify_all store phone attempts = store).
  { unfold verify_all. induction Hattempts as [| [c t] rest [Hne Ht] _ IH]; simpl.
    - reflexivity.
    - rewrite (verify_otp_wrong_guess store phone c entry t Hentry Hne Ht).
      exact IH. }
  rewrite Hsame. split; [reflexivity |].
  apply verify_otp_match; assumption.
Qed.

End OtpMore.

Section OtpEcho.

Import Server.

Variable TWILIO_PHONE : option string.

(** X4.  Without a Twilio client /send-otp hands the generated code back in its
    answer, and that code is the stored one: submitted no later than five
    minutes after the send, it is accepted. *)
Theorem otp_unconfigured_send_echoes_code
    (store : gmap string OtpEntry) (phone : string) (now now' : Z) (random : Q) :
  Js.truthy phone = true ->
  now' <= now + 5 * 60 * 1000 ->
  let sent := send_otp None TWILIO_PHONE store phone now random in
  exists echoed,
    sent.2 = json (OtpGenerated "OTP generated (not sent - twilio not configured)" echoed)
    /\ verify_otp sent.1 phone echoed now' = (delete phone sent.1, Verified).
Proof.
  intros Hp Hlive. cbv zeta. exists (genOtp random). split.
  - unfold send_otp. rewrite Hp. reflexivity.
  - rewrite send_otp_store by assumption.
    apply (verify_otp_match _ phone
             {| code := genOtp random; expiresAt := now + 5 * 60 * 1000 |} now');
      [assumption | apply genOtp_truthy | apply lookup_insert_eq | exact Hlive].
Qed.





End OtpEcho.

(** ** Market status and prices on the server *)

Section MarketMore.

Import Types Server ApiService.

Lemma setFirst_length {D} (f : D -> bool) (set : D -> D) (coll : list D) :
  length (setFirst f set coll) = length coll.
Proof.
  induction coll as [| d rest IH]; simpl; [reflexivity |].
  destruct (f d); simpl; congruence.
Qed.

Lemma find_setFirst_kept {D} (f : D -> bool) (set : D -> D) (coll : list D) (d : D) :
  (forall x, f x = true -> f (set x) = true) ->
  List.find f coll = Some d ->
  List.find f (setFirst f set coll) = Some (set d).
Proof.
  intros Hkept. induction coll as [| x rest IH]; simpl; [discriminate |].
  destruct (f x) eqn:Hx; simpl.
  - intros [= <-]. rewrite (Hkept x Hx). reflexivity.
  - rewrite Hx. exact IH.
Qed.

Lemma post_market_status_read_back (app_meta : list MetaDoc) (isOpen : bool) :
  (post_market_status app_meta isOpen).2 = json (Status isOpen)
  /\ get_market_status (post_market_status app_meta isOpen).1 = json (Status isOpen)
  /\ length (post_market_status app_meta isOpen).1
     = (length app_meta
        + match findOne is_market_status app_meta with Some _ => 0 | None => 1 end)%nat.
Proof.
  unfold post_market_status, get_market_status, updateOne_upsert, findOne, insertOne.
  rewrite negb_involutive. simpl.
  split; [reflexivity |].
  destruct (List.find is_market_status app_meta) as [d |] eqn:Hfind.
  - rewrite (find_setFirst_kept _ _ _ d); [| intros x Hx; exact Hx | exact Hfind].
    simpl. rewrite negb_involutive, setFirst_length.
    split; [reflexivity | lia].
  - rewrite (find_app_fresh is_market_status _ _ Hfind) by reflexivity.
    simpl. rewrite negb_involutive, length_app. simpl.
    split; [reflexivity | lia].
Qed.

(** X6.  POST /market-status followed by GET /market-status: the flag that was
    posted is the flag that is read, whatever [app_meta] held before, and
    the collection gains a document only when it had none for the flag. *)
Theorem market_status_set_then_get (app_meta : list MetaDoc) (isOpen : bool) :
  (post_market_status app_meta isOpen).2 = json (Status isOpen)
  /\ get_market_status (post_market_status app_meta isOpen).1 = json (Status isOpen)
  /\ length (post_market_status app_meta isOpen).1
     = (length app_meta
        + match findOne is_market_status app_meta with Some _ => 0 | None => 1 end)%nat.
Proof. apply post_market_status_read_back. Qed.

Lemma price_of_grade_setFirst_other (g grade_in : string) (u : ShrimpPrice)
    (coll : list ShrimpPrice) :
  g <> grade_in -> grade u = grade_in ->
  price_of_grade g
    (setFirst (fun d => String.eqb (grade d) grade_in) (fun _ => u) coll)
  = price_of_grade g coll.
Proof.
  intros Hne Hu. unfold price_of_grade.
  induction coll as [| d rest IH]; simpl; [reflexivity |].
  destruct (String.eqb_spec (grade d) grade_in) as [Hd | Hd]; simpl.
  - rewrite Hu, Hd. rewrite (eqb_neq_false grade_in g) by congruence. reflexivity.
  - destruct (String.eqb (grade d) g); [reflexivity | exact IH].
Qed.

Lemma price_of_grade_app_other (g : string) (u : ShrimpPrice) (coll : list ShrimpPrice) :
  g <> grade u ->
  price_of_grade g (coll ++ [u]) = price_of_grade g coll.
Proof.
  intros Hne. unfold price_of_grade.
  induction coll as [| d rest IH]; simpl.
  - rewrite (eqb_neq_false (grade u) g) by congruence. reflexivity.
  - destruct (String.eqb (grade d) g); [reflexivity | exact IH].
Qed.

(** X7.  PATCH /market-prices for one grade never changes the row of another
    grade, whether the request is accepted or not. *)
Theorem patch_market_prices_keeps_other_grades
    (coll : list ShrimpPrice) (grade_in other : string) (price_in : option Z) (now : Z) :
  other <> grade_in ->
  price_of_grade other (patch_market_prices coll grade_in price_in now).1
  = price_of_grade other coll.
Proof.
  intros Hne. unfold patch_market_prices.
  destruct (Js.truthy grade_in); [| reflexivity].
  destruct price_in as [p |]; [| reflexivity].
  unfold updateOne_upsert, findOne, insertOne. simpl.
  destruct (List.find _ coll).
  - apply price_of_grade_setFirst_other; [exact Hne | reflexivity].
  - apply price_of_grade_app_other. simpl. exact Hne.
Qed.

Lemma grades_setFirst (grade_in : string) (u : ShrimpPrice) (coll : list ShrimpPrice) :
  grade u = grade_in ->
  map grade (setFirst (fun d => String.eqb (grade d) grade_in) (fun _ => u) coll)
  = map grade coll.
Proof.
  intros Hu. induction coll as [| d rest IH]; simpl; [reflexivity |].
  destruct (String.eqb_spec (grade d) grade_in) as [Hd | Hd]; simpl; congruence.
Qed.

Lemma find_none_not_in (grade_in : string) (coll : list ShrimpPrice) :
  List.find (fun d => String.eqb (grade d) grade_in) coll = None ->
  ~ In grade_in (map grade coll).
Proof.
  intros Hfind Hin. apply in_map_iff in Hin. destruct Hin as (d & Hd & Hin).
  apply (find_none _ _ Hfind) in Hin. simpl in Hin.
  rewrite Hd, String.eqb_refl in Hin. discriminate.
Qed.

(** X8.  The grade is a key: when no two rows of the price collection share a
    grade, PATCH /market-prices keeps it so, and the collection grows by
    one row exactly when the request is accepted for a grade that had no
    row. *)
Theorem patch_market_prices_keeps_grades_unique
    (coll : list ShrimpPrice) (grade_in : string) (price_in : option Z) (now : Z) :
  List.NoDup (map grade coll) ->
  List.NoDup (map grade (patch_market_prices coll grade_in price_in now).1)
  /\ length (patch_market_prices coll grade_in price_in now).1
     = (length coll
        + match Js.truthy grade_in, price_in, price_of_grade grade_in coll with
          | true, Some _, None => 1
          | _, _, _ => 0
          end)%nat.
Proof.
  intros Hnodup. unfold patch_market_prices, price_of_grade.
  destruct (Js.truthy grade_in); [| split; [exact Hnodup | simpl; lia]].
  destruct price_in as [p |]; [| split; [exact Hnodup | simpl; lia]].
  unfold updateOne_upsert, findOne, insertOne. simpl.
  destruct (List.find _ coll) eqn:Hfind.
  - rewrite grades_setFirst by reflexivity. rewrite setFirst_length.
    split; [exact Hnodup | lia].
  - rewrite map_app, length_app. simpl. split; [| lia].
    apply List.NoDup_app; [exact Hnodup | |].
    + constructor; [intros [] | constructor].
    + intros a Ha [<- | []]. exact (find_none_not_in _ _ Hfind Ha).
Qed.

End MarketMore.

(** ** Harvest requests on the server, continued *)

Section HarvestMore.

Import Types Server HarvestAdmin.

(** Either shape of the driver's result. *)
Variable result_has_value : bool.

Lemma insert_desc_Permutation (x : HarvestRequest) (l : list HarvestRequest) :
  Permutation (insert_desc x l) (x :: l).
Proof.
  induction l as [| y rest IH]; simpl; [reflexivity |].
  destruct (timestamp y <? timestamp x); [reflexivity |].
  rewrite IH. apply perm_swap.
Qed.

Lemma sort_desc_Permutation (l : list HarvestRequest) : Permutation (sort_desc l) l.
Proof.
  unfold sort_desc.
  assert (H : forall acc, Permutation (fold_left (fun acc x => insert_desc x acc) l acc)
                            (acc ++ l)%list).
  { induction l as [| x rest IH]; intros acc; simpl.
    - rewrite app_nil_r. reflexivity.
    - rewrite IH, insert_desc_Permutation.
      rewrite (Permutation_cons_append acc x), <- app_assoc. reflexivity. }
  apply (H []).
Qed.

(** X9.  GET /harvest-requests without a farmer id, or with an empty one,
    answers with every stored request, each exactly once. *)
Theorem harvest_listing_unfiltered_is_complete (coll : list HarvestRequest) :
  Permutation (list_harvest_requests coll None) coll
  /\ Permutation (list_harvest_requests coll (Some "")) coll.
Proof.
  assert (Hall : forall l : list HarvestRequest, List.filter (fun _ => true) l = l).
  { induction l as [| x rest IH]; simpl; congruence. }
  unfold list_harvest_requests, find, harvest_filter. simpl.
  rewrite Hall. split; apply sort_desc_Permutation.
Qed.

(** X10.  GET /harvest-requests?farmerId=f answers with the stored requests of
    farmer [f], all of them and nothing else. *)
Theorem harvest_listing_by_farmer_is_exact (coll : list HarvestRequest) (f : string) :
  Js.truthy f = true ->
  Permutation (list_harvest_requests coll (Some f))
    (List.filter (fun r => String.eqb (farmerId (data r)) f) coll)
  /\ Forall (fun r => farmerId (data r) = f) (list_harvest_requests coll (Some f)).
Proof.
  intros Hf.
  assert (Hperm : Permutation (list_harvest_requests coll (Some f))
                    (List.filter (fun r => String.eqb (farmerId (data r)) f) coll)).
  { unfold list_harvest_requests, find, harvest_filter. rewrite Hf. simpl. rewrite Hf.
    apply sort_desc_Permutation. }
  split; [exact Hperm |].
  apply List.Forall_forall. intros r Hr.
  apply (Permutation_in _ Hperm) in Hr.
  apply List.filter_In in Hr. destruct Hr as [_ Hr].
  apply String.eqb_eq, Hr.
Qed.

Lemma setFirst_set_status_core (id_param status_in : string) (coll : list HarvestRequest) :
  map core (setFirst (fun d => String.eqb (req_id d) id_param) (set_status status_in) coll)
  = map core coll.
Proof.
  induction coll as [| d rest IH]; simpl; [reflexivity |].
  destruct (String.eqb (req_id d) id_param); simpl; [reflexivity | congruence].
Qed.

Lemma setFirst_Forall {D} (P : D -> Prop) (f : D -> bool) (set : D -> D) (coll : list D) :
  (forall d, P d -> P (set d)) ->
  Forall P coll -> Forall P (setFirst f set coll).
Proof.
  intros Hset. induction 1 as [| d rest Hd Hrest IH]; simpl; [constructor |].
  destruct (f d); constructor; auto.
Qed.

Lemma patch_harvest_request_store (coll : list HarvestRequest) (id_param status_in : string) :
  (patch_harvest_request result_has_value coll id_param status_in).1 = coll
  \/ (Js.truthy status_in = true
      /\ (patch_harvest_request result_has_value coll id_param status_in).1
         = setFirst (fun d => String.eqb (req_id d) id_param) (set_status status_in) coll).
Proof.
  unfold patch_harvest_request, findOneAndUpdate, findOne.
  destruct (Js.truthy status_in); simpl; [| left; reflexivity].
  destruct (List.find _ coll); destruct result_has_value; simpl;
    (right; split; reflexivity) || (left; reflexivity).
Qed.

Lemma post_harvest_requests_store (coll : list HarvestRequest) (data_in : HarvestData)
    (now_id now : Z) (suffix : string) :
  (post_harvest_requests coll data_in now_id now suffix).1 = coll
  \/ (Js.truthy (farmerId data_in) = true /\ Js.truthy (h_grade data_in) = true
      /\ Js.truthy_num (quantity data_in) = true
      /\ (post_harvest_requests coll data_in now_id now suffix).1
         = (coll ++ [ {| data := data_in;
                         req_id := "req_" ++ Js.toString now_id ++ "_" ++ suffix;
                         req_status := "Pending Approval";
                         timestamp := now |} ])%list).
Proof.
  unfold post_harvest_requests.
  destruct (Js.truthy (farmerId data_in)); simpl; [| left; reflexivity].
  destruct (Js.truthy (h_grade data_in)); simpl; [| left; reflexivity].
  destruct (Js.truthy_num (quantity data_in)); simpl; [| left; reflexivity].
  right. repeat split; reflexivity.
Qed.

(** X11.  Whatever requests the harvest routes receive, accepted or rejected,
    every stored request has a farmer id, a grade, a non-zero quantity and
    a status. *)
Theorem harvest_collection_well_formed (calls : list HarvestCall) :
  Forall well_formed (serve result_has_value calls).
Proof.
  unfold serve.
  assert (H : forall coll, Forall well_formed coll ->
                Forall well_formed (fold_left (handle result_has_value) calls coll)).
  { induction calls as [| call rest IH]; intros coll Hcoll; simpl; [exact Hcoll |].
    apply IH. destruct call as [data_in now_id now suffix | id_param status_in]; simpl.
    - destruct (post_harvest_requests_store coll data_in now_id now suffix)
        as [-> | (Hf & Hg & Hq & ->)]; [exact Hcoll |].
      apply Forall_app. split; [exact Hcoll |].
      constructor; [| constructor].
      unfold well_formed. simpl. auto.
    - destruct (patch_harvest_request_store coll id_param status_in)
        as [-> | (Hs & ->)]; [exact Hcoll |].
      apply setFirst_Forall; [| exact Hcoll].
      unfold well_formed. simpl. intros d (Hf & Hg & Hq & _). auto. }
  apply H. constructor.
Qed.

(** X12.  No route deletes, reorders or rewrites a stored request apart from its
    status: a call keeps the submitted fields, ids and timestamps of the
    collection in place and appends at most one request. *)
Theorem harvest_collection_append_only (coll : list HarvestRequest) (call : HarvestCall) :
  exists added, map core (handle result_has_value coll call) = (map core coll ++ added)%list
                /\ (length added <= 1)%nat.
Proof.
  destruct call as [data_in now_id now suffix | id_param status_in]; simpl.
  - destruct (post_harvest_requests_store coll data_in now_id now suffix)
      as [-> | (_ & _ & _ & ->)].
    + exists []. rewrite app_nil_r. split; [reflexivity | simpl; lia].
    + eexists. rewrite map_app. split; [reflexivity | simpl; lia].
  - exists []. rewrite app_nil_r. split; [| simpl; lia].
    destruct (patch_harvest_request_store coll id_param status_in) as [-> | (_ & ->)];
      [reflexivity | apply setFirst_set_status_core].
Qed.

End HarvestMore.

Section HarvestStatus.

Import Types Server HarvestAdmin.

(** Two requests that differ at most in their status. *)
Local Abbreviation same_core := (fun a b : HarvestRequest => core a = core b).








End HarvestStatus.

(** ** The client facade, continued *)

Section FacadeMore.

Import Types ApiService.
Local Open Scope promise_scope.

Variable MOCK_SHRIMP_PRICES : list ShrimpPrice.

(** A usable answer is handed out as it is: the fallback does not run, so
    local storage is not read or written and no timer is set. *)
Lemma tryFetch_usable_answer {T} (base path : string) (remote : Remote T)
    (options : option RequestInit) (fallback : option (M T)) (w : World)
    (res : HttpResponse T) (a : T) :
  Js.truthy base = true ->
  remote (build_url base path) options = Answered res ->
  ok res = true ->
  parsed res = Some a ->
  tryFetch base remote path options fallback w
  = (Resolved (Some a), record_fetch (build_url base path) options w).
Proof.
  intros Hbase Hremote Hok Hparsed.
  unfold tryFetch. rewrite Hbase. simpl.
  unfold try_catch, bind, fetch. rewrite Hremote. simpl.
  rewrite Hok, Hparsed. simpl. destruct fallback; reflexivity.
Qed.

(** With a base address [tryFetch] calls the network once, whatever is
    answered and whatever a fallback that stays off the network does, even
    when the fallback runs twice. *)
Lemma tryFetch_fetches_once {T} (base path : string) (remote : Remote T)
    (options : option RequestInit) (fb : M T) (w : World) :
  Js.truthy base = true ->
  (forall w0, fetched (fb w0).2 = fetched w0) ->
  fetched (tryFetch base remote path options (Some fb) w).2
  = (fetched w ++ [(build_url base path, options)])%list.
Proof.
  intros Hbase Hfb.
  unfold tryFetch. rewrite Hbase. simpl.
  unfold try_catch, bind, fetch.
  set (w' := record_fetch (build_url base path) options w).
  assert (Hrun : forall w0, fetched w0 = fetched w' ->
            fetched (match fb w0 with
                     | (Resolved a, w1) => ret (Some a) w1
                     | (Rejected e, w1) => (Rejected e, w1)
                     end).2 = fetched w').
  { intros w0 H0. specialize (Hfb w0). destruct (fb w0) as [[a | e] w1]; simpl in *;
      congruence. }
  assert (Hagain : forall err w0, fetched w0 = fetched w' ->
            fetched (match (match fb w0 with
                            | (Resolved a, w1) => ret (Some a) w1
                            | (Rejected e, w1) => (Rejected e, w1)
                            end) with
                     | (Resolved a, w1) => (Resolved a, w1)
                     | (Rejected _, w1) => @throw (option T) err w1
                     end).2 = fetched w').
  { intros err w0 H0. specialize (Hfb w0). destruct (fb w0) as [[a | e] w1]; simpl in *;
      congruence. }
  assert (Hboth : fetched (match (match fb w' with
                                  | (Resolved a, w1) => ret (Some a) w1
                                  | (Rejected e, w1) => (Rejected e, w1)
                                  end) with
                           | (Resolved a, w1) => (Resolved a, w1)
                           | (Rejected e, w1) =>
                               match (match fb w1 with
                                      | (Resolved a, w2) => ret (Some a) w2
                                      | (Rejected e', w2) => (Rejected e', w2)
                                      end) with
                               | (Resolved a, w2) => (Resolved a, w2)
                               | (Rejected _, w2) => @throw (option T) e w2
                               end
                           end).2 = fetched w').
  { pose proof (Hfb w') as H1. destruct (fb w') as [[a | e] w1]; simpl in *;
      [exact H1 |].
    apply Hagain. exact H1. }
  destruct (remote (build_url base path) options) as [err | res]; simpl.
  - apply Hagain. reflexivity.
  - destruct (ok res); simpl.
    + destruct (parsed res) as [a |]; simpl; [reflexivity | exact Hboth].
    + exact Hboth.
Qed.

Lemma getPricesDb_fetched (w : World) :
  fetched (getPricesDb MOCK_SHRIMP_PRICES w).2 = fetched w.
Proof. rewrite getPricesDb_run. reflexivity. Qed.

Lemma updateMarketPrice_fallback_fetched (grade_in : string) (p : Z) (w : World) :
  fetched (updateMarketPrice_fallback MOCK_SHRIMP_PRICES grade_in p w).2 = fetched w.
Proof.
  unfold updateMarketPrice_fallback, bind. rewrite getPricesDb_run.
  destruct (Js.findIndex _ _) as [idx |]; [| reflexivity].
  destruct (_ !! idx); reflexivity.
Qed.

(** X15.  The market operations of the facade never retry and never call a
    second endpoint: each makes exactly one network call, whatever the
    remote side answers and whether or not the fallback runs or throws. *)
Theorem market_operations_fetch_once (env : Env) (w : World)
    (status_remote : Remote StatusReply) (prices_remote : Remote PricesReply)
    (price_remote : Remote PriceReply) (isOpen : bool) (grade_in : string) (p : Z) :
  fetched (getMarketStatus (API_BASE env) status_remote w).2
  = (fetched w ++ [(build_url (API_BASE env) "/market-status", None)])%list
  /\ fetched (updateMarketStatus (API_BASE env) status_remote isOpen w).2
     = (fetched w
        ++ [(build_url (API_BASE env) "/market-status",
             Some {| method := "POST"; content_type := "application/json";
                     req_body := IsOpen isOpen |})])%list
  /\ fetched (getMarketPrices MOCK_SHRIMP_PRICES (API_BASE env) prices_remote w).2
     = (fetched w ++ [(build_url (API_BASE env) "/market-prices", None)])%list
  /\ fetched (updateMarketPrice MOCK_SHRIMP_PRICES (API_BASE env) price_remote
                grade_in p w).2
     = (fetched w
        ++ [(build_url (API_BASE env) "/market-prices",
             Some {| method := "PATCH"; content_type := "application/json";
                     req_body := GradePrice grade_in p |})])%list.
Proof.
  split; [| split; [| split]].
  - unfold getMarketStatus, bind.
    pose proof (tryFetch_fetches_once (API_BASE env) "/market-status" status_remote
                  None getMarketStatus_fallback w (API_BASE_truthy env)
                  (fun w0 => eq_refl)) as H.
    destruct (tryFetch _ _ _ _ _ w) as [[[[b | s [st |]] |] | e] w1]; exact H.
  - unfold updateMarketStatus, bind.
    pose proof (tryFetch_fetches_once (API_BASE env) "/market-status" status_remote
                  (Some {| method := "POST"; content_type := "application/json";
                           req_body := IsOpen isOpen |})
                  (updateMarketStatus_fallback isOpen) w (API_BASE_truthy env)
                  (fun w0 => eq_refl)) as H.
    destruct (tryFetch _ _ _ _ _ w) as [[[[b | [|] [st |]] |] | e] w1]; exact H.
  - apply getMarketPrices_fetches_once.
  - unfold updateMarketPrice, bind.
    pose proof (tryFetch_fetches_once (API_BASE env) "/market-prices" price_remote
                  (Some {| method := "PATCH"; content_type := "application/json";
                           req_body := GradePrice grade_in p |})
                  (updateMarketPrice_fallback MOCK_SHRIMP_PRICES grade_in p) w
                  (API_BASE_truthy env)
                  (updateMarketPrice_fallback_fetched grade_in p)) as H.
    destruct (tryFetch _ _ _ _ _ w) as [[[[row | s [row |]] |] | e] w1]; simpl;
      [destruct (Js.truthy_num (price row)) | | | |]; exact H.
Qed.

End FacadeMore.

Section LocalPersistence.

Import Types ApiService.
Local Open Scope promise_scope.

(** The default prices are written on the first read only: every later
    read returns what is stored and writes nothing, also when the defaults
    shipped with the page have changed in between. *)
Theorem default_prices_seeded_once (defaults later_defaults : list ShrimpPrice)
    (w : World) :
  let first := getPricesDb defaults w in
  first.1 = Resolved (match market_prices (localStorage w) with
                      | Some db => db
                      | None => defaults
                      end)
  /\ getPricesDb later_defaults first.2 = (first.1, first.2).
Proof.
  cbv zeta. rewrite (getPricesDb_run defaults w).
  split; [reflexivity |].
  rewrite (getPricesDb_run later_defaults). reflexivity.
Qed.

Variable MOCK_SHRIMP_PRICES : list ShrimpPrice.

Lemma getMarketStatus_fallback_run (w : World) :
  getMarketStatus_fallback w
  = (Resolved (StatusBare (match market_status (localStorage w) with
                           | Some b => b
                           | None => true
                           end)),
     after_latency w).
Proof. reflexivity. Qed.

(** X16.  With the server out of reach, a market status set through the facade
    is kept in local storage and is what the facade reads back. *)
Theorem market_status_local_round_trip (env : Env) (remote : Remote StatusReply)
    (w : World) (isOpen : bool) :
  remote_fails remote (build_url (API_BASE env) "/market-status")
    (Some {| method := "POST"; content_type := "application/json";
             req_body := IsOpen isOpen |}) = true ->
  remote_fails remote (build_url (API_BASE env) "/market-status") None = true ->
  let updated := updateMarketStatus (API_BASE env) remote isOpen w in
  updated.1 = Resolved isOpen
  /\ market_status (localStorage updated.2) = Some isOpen
  /\ (getMarketStatus (API_BASE env) remote updated.2).1 = Resolved isOpen.
Proof.
  intros Hpost Hget. cbv zeta.
  assert (Hupdate : updateMarketStatus (API_BASE env) remote isOpen w
                    = (Resolved isOpen,
                       after_latency
                         {| localStorage :=
                              {| harvest_requests := harvest_requests (localStorage w);
                                 market_prices := market_prices (localStorage w);
                                 market_status := Some isOpen |};
                            fetched := fetched
                                         (record_fetch
                                            (build_url (API_BASE env) "/market-status")
                                            (Some {| method := "POST";
                                                     content_type := "application/json";
                                                     req_body := IsOpen isOpen |}) w);
                            timers := timers w |})).
  { unfold updateMarketStatus, bind.
    rewrite (tryFetch_falls_back _ _ _ _ (updateMarketStatus_fallback isOpen) w _ _
               (API_BASE_truthy env) Hpost eq_refl).
    reflexivity. }
  rewrite Hupdate. simpl.
  split; [reflexivity |]. split; [reflexivity |].
  unfold getMarketStatus, bind.
  rewrite (tryFetch_falls_back _ _ _ _ _ _ _ _ (API_BASE_truthy env) Hget
             (getMarketStatus_fallback_run _)).
  reflexivity.
Qed.

(** X17.  With the server out of reach, [updateMarketPrice] on a grade that has a
    local row does not resolve with the updated row: the caller receives the
    new price as a bare number, and the row only when the new price is
    zero. *)
Theorem updateMarketPrice_offline_result (env : Env) (remote : Remote PriceReply)
    (grade_in : string) (p : Z) (row : ShrimpPrice) (w : World) :
  remote_fails remote (build_url (API_BASE env) "/market-prices")
    (Some {| method := "PATCH"; content_type := "application/json";
             req_body := GradePrice grade_in p |}) = true ->
  price_of_grade grade_in (local_prices MOCK_SHRIMP_PRICES (localStorage w)) = Some row ->
  (updateMarketPrice MOCK_SHRIMP_PRICES (API_BASE env) remote grade_in p w).1
  = Resolved (if Js.truthy_num p then OutNumber p
              else OutPrice {| grade := grade row; price := p;
                               previousPrice := Some (price row);
                               updatedAt := updatedAt row |}).
Proof.
  intros Hfails Hfind.
  destruct (updateMarketPrice_fallback_existing MOCK_SHRIMP_PRICES grade_in p row
              (record_fetch (build_url (API_BASE env) "/market-prices")
                 (Some {| method := "PATCH"; content_type := "application/json";
                          req_body := GradePrice grade_in p |}) w) Hfind)
    as (db & Hrun & _).
  unfold updateMarketPrice, bind.
  rewrite (tryFetch_falls_back _ _ _ _ _ _ _ _ (API_BASE_truthy env) Hfails Hrun).
  simpl. destruct (Js.truthy_num p); reflexivity.
Qed.

Lemma price_of_grade_insert_other (g grade_in : string) (u : ShrimpPrice)
    (db : list ShrimpPrice) (idx : nat) :
  Js.findIndex (fun p => String.eqb (grade p) grade_in) db = Some idx ->
  grade u = grade_in -> g <> grade_in ->
  price_of_grade g (<[idx := u]> db) = price_of_grade g db.
Proof.
  intros Hidx Hu Hne. unfold price_of_grade.
  revert idx Hidx. induction db as [| d rest IH]; intros idx Hidx; simpl in *;
    [discriminate |].
  destruct (String.eqb_spec (grade d) grade_in) as [Hd | Hd].
  - injection Hidx as <-. simpl. rewrite Hu, Hd.
    rewrite (eqb_neq_false grade_in g) by congruence. reflexivity.
  - destruct (Js.findIndex _ rest) as [i |]; [| discriminate].
    injection Hidx as <-. simpl.
    destruct (String.eqb (grade d) g); [reflexivity | apply IH; reflexivity].
Qed.

(** X18.  The local price update rewrites one row in place: the rows of the
    other grades and the number of rows stay as they were. *)
Theorem updateMarketPrice_local_keeps_other_rows (env : Env)
    (remote : Remote PriceReply) (grade_in other : string) (p : Z)
    (row : ShrimpPrice) (w : World) :
  remote_fails remote (build_url (API_BASE env) "/market-prices")
    (Some {| method := "PATCH"; content_type := "application/json";
             req_body := GradePrice grade_in p |}) = true ->
  price_of_grade grade_in (local_prices MOCK_SHRIMP_PRICES (localStorage w)) = Some row ->
  other <> grade_in ->
  let after := (updateMarketPrice MOCK_SHRIMP_PRICES (API_BASE env) remote
                  grade_in p w).2 in
  stored_price other after
  = price_of_grade other (local_prices MOCK_SHRIMP_PRICES (localStorage w))
  /\ length (local_prices MOCK_SHRIMP_PRICES (localStorage after))
     = length (local_prices MOCK_SHRIMP_PRICES (localStorage w)).
Proof.
  intros Hfails Hfind Hne. cbv zeta.
  set (opts := Some {| method := "PATCH"; content_type := "application/json";
                       req_body := GradePrice grade_in p |}) in *.
  set (w' := record_fetch (build_url (API_BASE env) "/market-prices") opts w).
  destruct (findIndex_Some _ _ _ Hfind) as (idx & Hidx & Hrow & _).
  assert (Hrun : updateMarketPrice_fallback MOCK_SHRIMP_PRICES grade_in p w'
                 = (Resolved (PriceBare {| grade := grade row; price := p;
                                           previousPrice := Some (price row);
                                           updatedAt := updatedAt row |}),
                    after_latency
                      (with_prices
                         (<[idx := {| grade := grade row; price := p;
                                      previousPrice := Some (price row);
                                      updatedAt := updatedAt row |}]>
                            (local_prices MOCK_SHRIMP_PRICES (localStorage w))) w'))).
  { unfold updateMarketPrice_fallback, bind.
    rewrite getPricesDb_run. simpl. rewrite Hidx, Hrow. reflexivity. }
  unfold updateMarketPrice, bind. fold opts.
  rewrite (tryFetch_falls_back _ _ _ _ _ w _ _ (API_BASE_truthy env) Hfails Hrun).
  simpl.
  assert (Hgrade : grade row = grade_in).
  { apply find_some in Hfind. destruct Hfind as [_ H]. apply String.eqb_eq, H. }
  destruct (Js.truthy_num p); simpl; unfold stored_price, local_prices; simpl;
    (split; [apply (price_of_grade_insert_other _ grade_in); auto
            | apply length_insert]).
Qed.

End LocalPersistence.

(** ** Harvest requests in the client *)

Section HarvestLocal.

Import Types ApiService HarvestService HarvestAdmin.
Local Open Scope promise_scope.

Lemma getDb_run (w : World) : getDb w = (Resolved (local_requests w), w).
Proof. reflexivity. Qed.

Lemma submitHarvestRequest_fallback_run (requestData : HarvestData)
    (now_id now : Z) (suffix : string) (w : World) :
  submitHarvestRequest_fallback requestData now_id now suffix w
  = (Resolved (RequestBare {| data := requestData;
                              req_id := "req_" ++ Js.toString now_id ++ "_" ++ suffix;
                              req_status := "Pending Approval";
                              timestamp := now |}),
     after_latency
       (with_requests
          (local_requests w
           ++ [ {| data := requestData;
                   req_id := "req_" ++ Js.toString now_id ++ "_" ++ suffix;
                   req_status := "Pending Approval";
                   timestamp := now |} ])%list w)).
Proof. reflexivity. Qed.

Lemma getHarvestRequestsForUser_fallback_run (farmerId_in : string) (w : World) :
  getHarvestRequestsForUser_fallback farmerId_in w
  = (Resolved (RequestsArray
                 (sort_desc (List.filter (by_farmer farmerId_in) (local_requests w)))),
     after_latency w).
Proof. reflexivity. Qed.

(** X19.  With the server out of reach, a submission is stored locally as
    "Pending Approval", whatever fields it carries, and handed back; the
    listing for its farmer id then contains it, is ordered newest first and
    holds only requests of that farmer, and the listing for another id does
    not contain it. *)
Theorem harvest_offline_submit_then_list (env : Env)
    (remote : Remote RequestReply) (list_remote : Remote RequestsReply)
    (requestData : HarvestData) (now_id now : Z) (suffix other : string) (w : World) :
  remote_fails remote (build_url (API_BASE env) "/harvest-requests")
    (Some {| method := "POST"; content_type := "application/json";
             req_body := Submit requestData |}) = true ->
  remote_fails list_remote
    (build_url (API_BASE env)
       ("/harvest-requests?farmerId=" ++ encodeURIComponent (farmerId requestData)))
    None = true ->
  remote_fails list_remote
    (build_url (API_BASE env)
       ("/harvest-requests?farmerId=" ++ encodeURIComponent other))
    None = true ->
  other <> farmerId requestData ->
  let newRequest := {| data := requestData;
                       req_id := "req_" ++ Js.toString now_id ++ "_" ++ suffix;
                       req_status := "Pending Approval";
                       timestamp := now |} in
  let submitted :=
    submitHarvestRequest (API_BASE env) remote requestData now_id now suffix w in
  submitted.1 = Resolved (OutRequest newRequest)
  /\ local_requests submitted.2 = (local_requests w ++ [newRequest])%list
  /\ (exists mine,
        (getHarvestRequestsForUser (API_BASE env) list_remote (farmerId requestData)
           submitted.2).1 = Resolved mine
        /\ In newRequest mine
        /\ StronglySorted newer_first mine
        /\ Forall (fun r => farmerId (data r) = farmerId requestData) mine)
  /\ (exists theirs,
        (getHarvestRequestsForUser (API_BASE env) list_remote other submitted.2).1
        = Resolved theirs
        /\ ~ In newRequest theirs).
Proof.
  intros Hsubmit Hmine Htheirs Hne. cbv zeta.
  unfold submitHarvestRequest, bind.
  rewrite (tryFetch_falls_back _ _ _ _ _ w _ _ (API_BASE_truthy env) Hsubmit
             (submitHarvestRequest_fallback_run requestData now_id now suffix _)).
  simpl fst. simpl snd.
  split; [reflexivity |]. split; [reflexivity |].
  split.
  - eexists. unfold getHarvestRequestsForUser, bind.
    rewrite (tryFetch_falls_back _ _ _ _ _ _ _ _ (API_BASE_truthy env) Hmine
               (getHarvestRequestsForUser_fallback_run _ _)).
    simpl fst. split; [reflexivity |].
    split; [| split].
    + apply sort_desc_In, List.filter_In. split.
      * unfold local_requests. simpl. apply in_or_app. right. left. reflexivity.
      * unfold by_farmer. simpl. apply String.eqb_refl.
    + apply sort_desc_sorted.
    + apply List.Forall_forall. intros r Hr.
      apply sort_desc_In, List.filter_In in Hr. destruct Hr as [_ Hr].
      apply String.eqb_eq, Hr.
  - eexists. unfold getHarvestRequestsForUser, bind.
    rewrite (tryFetch_falls_back _ _ _ _ _ _ _ _ (API_BASE_truthy env) Htheirs
               (getHarvestRequestsForUser_fallback_run _ _)).
    simpl fst. split; [reflexivity |].
    intros Hin. apply sort_desc_In, List.filter_In in Hin. destruct Hin as [_ Hin].
    unfold by_farmer in Hin. simpl in Hin. apply String.eqb_eq in Hin. congruence.
Qed.

(** With the server out of reach, the listing of all requests is the
    stored list ordered newest first, nothing dropped or added, and local
    storage is left as it is, also when nothing is stored yet. *)
Theorem harvest_offline_listing_all (env : Env) (remote : Remote RequestsReply)
    (w : World) :
  remote_fails remote (build_url (API_BASE env) "/harvest-requests") None = true ->
  let listed := getAllHarvestRequests (API_BASE env) remote w in
  listed.1 = Resolved (sort_desc (local_requests w))
  /\ Permutation (sort_desc (local_requests w)) (local_requests w)
  /\ StronglySorted newer_first (sort_desc (local_requests w))
  /\ localStorage listed.2 = localStorage w.
Proof.
  intros Hfails. cbv zeta.
  unfold getAllHarvestRequests, bind.
  rewrite (tryFetch_falls_back _ _ _ _ getAllHarvestRequests_fallback w _ _
             (API_BASE_truthy env) Hfails eq_refl).
  simpl. repeat split; [apply sort_desc_Permutation | apply sort_desc_sorted].
Qed.

Lemma core_insert (db : list HarvestRequest) (idx : nat) (row updated : HarvestRequest) :
  db !! idx = Some row -> core updated = core row ->
  map core (<[idx := updated]> db) = map core db.
Proof.
  revert idx. induction db as [| d rest IH]; intros [| idx] Hrow Hcore; simpl in *;
    try discriminate.
  - injection Hrow as ->. congruence.
  - rewrite (IH idx Hrow Hcore). reflexivity.
Qed.

(** X20.  With the server out of reach, a status update for a stored id rewrites
    that request in local storage and hands it back; ids, submitted fields
    and timestamps of all stored requests stay as they were. *)
Theorem harvest_offline_status_update (env : Env) (remote : Remote RequestReply)
    (requestId newStatus : string) (row : HarvestRequest) (w : World) :
  remote_fails remote
    (build_url (API_BASE env) ("/harvest-requests/" ++ encodeURIComponent requestId))
    (Some {| method := "PATCH"; content_type := "application/json";
             req_body := NewStatus newStatus |}) = true ->
  List.find (fun r => String.eqb (req_id r) requestId) (local_requests w) = Some row ->
  let updated := {| data := data row; req_id := req_id row;
                    req_status := newStatus; timestamp := timestamp row |} in
  let run := updateHarvestRequestStatus (API_BASE env) remote requestId newStatus w in
  run.1 = Resolved (OutRequest updated)
  /\ List.find (fun r => String.eqb (req_id r) requestId) (local_requests run.2)
     = Some updated
  /\ map core (local_requests run.2) = map core (local_requests w).
Proof.
  intros Hfails Hfind. cbv zeta.
  destruct (findIndex_Some _ _ _ Hfind) as (idx & Hidx & Hrow & Hset).
  assert (Hid : String.eqb (req_id row) requestId = true).
  { apply find_some in Hfind. destruct Hfind as [_ H]. exact H. }
  set (updated := {| data := data row; req_id := req_id row;
                     req_status := newStatus; timestamp := timestamp row |}).
  set (opts := Some {| method := "PATCH"; content_type := "application/json";
                       req_body := NewStatus newStatus |}) in *.
  set (url := build_url (API_BASE env)
                ("/harvest-requests/" ++ encodeURIComponent requestId)) in *.
  assert (Hrun : updateHarvestRequestStatus_fallback requestId newStatus
                   (record_fetch url opts w)
                 = (Resolved (RequestBare updated),
                    after_latency
                      (with_requests (<[idx := updated]> (local_requests w))
                         (record_fetch url opts w)))).
  { unfold updateHarvestRequestStatus_fallback, bind. rewrite getDb_run.
    change (local_requests (record_fetch url opts w)) with (local_requests w).
    rewrite Hidx, Hrow. reflexivity. }
  unfold updateHarvestRequestStatus, bind. fold opts. fold url.
  rewrite (tryFetch_falls_back _ _ _ _ _ w _ _ (API_BASE_truthy env) Hfails Hrun).
  simpl fst. simpl snd.
  split; [reflexivity |].
  split.
  - apply Hset. exact Hid.
  - apply (core_insert _ idx row updated Hrow). reflexivity.
Qed.

Lemma updateHarvestRequestStatus_fallback_unknown (requestId newStatus : string)
    (w : World) :
  List.find (fun r => String.eqb (req_id r) requestId) (local_requests w) = None ->
  updateHarvestRequestStatus_fallback requestId newStatus w
  = (Rejected (new_Error "Request not found"), w).
Proof.
  intros Hfind. unfold updateHarvestRequestStatus_fallback, bind. rewrite getDb_run.
  rewrite (findIndex_None _ _ Hfind). reflexivity.
Qed.

(** X14.  When [fetch] itself rejects and the local fallback cannot help because
    the grade, or the request id, is unknown locally, the operation rejects
    with the network error, not with the "not found" error the fallback
    threw. *)
Theorem facade_network_error_outlives_failing_fallback (defaults : list ShrimpPrice)
    (env : Env) (price_remote : Remote PriceReply) (request_remote : Remote RequestReply)
    (grade_in requestId newStatus : string) (p : Z) (err err' : Error) (w : World) :
  price_remote (build_url (API_BASE env) "/market-prices")
    (Some {| method := "PATCH"; content_type := "application/json";
             req_body := GradePrice grade_in p |}) = NetworkError err ->
  price_of_grade grade_in (local_prices defaults (localStorage w)) = None ->
  request_remote
    (build_url (API_BASE env) ("/harvest-requests/" ++ encodeURIComponent requestId))
    (Some {| method := "PATCH"; content_type := "application/json";
             req_body := NewStatus newStatus |}) = NetworkError err' ->
  List.find (fun r => String.eqb (req_id r) requestId) (local_requests w) = None ->
  (updateMarketPrice defaults (API_BASE env) price_remote grade_in p w).1 = Rejected err
  /\ (updateHarvestRequestStatus (API_BASE env) request_remote requestId newStatus w).1
     = Rejected err'.
Proof.
  intros Hprice Hgrade Hrequest Hid. split.
  - unfold updateMarketPrice, bind.
    rewrite (tryFetch_network_error_fallback_throws _ _ _ _ _ w _ err _
               (API_BASE_truthy env) Hprice
               (updateMarketPrice_fallback_unknown defaults grade_in p
                  (record_fetch _ _ w) Hgrade)).
    reflexivity.
  - unfold updateHarvestRequestStatus, bind.
    rewrite (tryFetch_network_error_fallback_throws _ _ _ _ _ w _ err' _
               (API_BASE_truthy env) Hrequest
               (updateHarvestRequestStatus_fallback_unknown requestId newStatus
                  (record_fetch _ _ w) Hid)).
    reflexivity.
Qed.

End HarvestLocal.

(** ** The facade against the server *)

Section EndToEnd.

Import Types Server ApiService HarvestService Wire.
Local Open Scope promise_scope.

Variable MOCK_SHRIMP_PRICES : list ShrimpPrice.

(** X21.  A market status posted through the facade reaches the server's
    [app_meta] collection, and the facade then reads the same flag back
    from the server; local storage is not involved. *)
Theorem market_status_through_server (env : Env) (app_meta : list MetaDoc)
    (isOpen : bool) (post_text get_text : string) (w : World) :
  let posted := post_market_status app_meta isOpen in
  let updated :=
    updateMarketStatus (API_BASE env)
      (answering posted.2 post_text (StatusEnvelope true (Some isOpen))) isOpen w in
  let read :=
    getMarketStatus (API_BASE env)
      (answering (get_market_status posted.1) get_text
         (StatusEnvelope true (Some isOpen))) updated.2 in
  as_status (body posted.2) = Some (StatusEnvelope true (Some isOpen))
  /\ as_status (body (get_market_status posted.1))
     = Some (StatusEnvelope true (Some isOpen))
  /\ updated.1 = Resolved isOpen
  /\ read.1 = Resolved isOpen
  /\ localStorage read.2 = localStorage w.
Proof.
  cbv zeta.
  destruct (post_market_status_read_back app_meta isOpen) as (Hpost & Hget & _).
  rewrite Hpost, Hget.
  split; [reflexivity |]. split; [reflexivity |].
  unfold updateMarketStatus, getMarketStatus, bind.
  rewrite (tryFetch_usable_answer (API_BASE env) "/market-status" _ _ _ w
             (http_of (json (Status isOpen)) post_text
                (Some (StatusEnvelope true (Some isOpen))))
             (StatusEnvelope true (Some isOpen)) (API_BASE_truthy env) eq_refl
             eq_refl eq_refl).
  simpl.
  rewrite (tryFetch_usable_answer (API_BASE env) "/market-status" _ None _ _
             (http_of (json (Status isOpen)) get_text
                (Some (StatusEnvelope true (Some isOpen))))
             (StatusEnvelope true (Some isOpen)) (API_BASE_truthy env) eq_refl
             eq_refl eq_refl).
  simpl. repeat split; reflexivity.
Qed.

(** X22.  Prices through the server.  [getMarketPrices] resolves with the
    server's collection and does not seed local storage; an accepted
    [updateMarketPrice] resolves with the row the server stored, previous
    price included, and writes nothing locally. *)
Theorem market_prices_through_server (env : Env) (pricesColl : list ShrimpPrice)
    (grade_in : string) (p now : Z) (list_text patch_text : string) (w : World) :
  Js.truthy grade_in = true ->
  let updated := {| grade := grade_in; price := p;
                    previousPrice :=
                      option_map price (price_of_grade grade_in pricesColl);
                    updatedAt := Some now |} in
  let listed :=
    getMarketPrices MOCK_SHRIMP_PRICES (API_BASE env)
      (answering (get_market_prices pricesColl) list_text (PricesArray pricesColl)) w in
  let patched := patch_market_prices pricesColl grade_in (Some p) now in
  let run :=
    updateMarketPrice MOCK_SHRIMP_PRICES (API_BASE env)
      (answering patched.2 patch_text (PriceEnvelope true (Some updated)))
      grade_in p w in
  as_prices (body (get_market_prices pricesColl)) = Some (PricesArray pricesColl)
  /\ listed.1 = Resolved pricesColl
  /\ localStorage listed.2 = localStorage w
  /\ as_price (body patched.2) = Some (PriceEnvelope true (Some updated))
  /\ run.1 = Resolved (OutPrice updated)
  /\ localStorage run.2 = localStorage w.
Proof.
  intros Hg. cbv zeta.
  assert (Hall : forall l : list ShrimpPrice, List.filter (fun _ => true) l = l).
  { induction l as [| x rest IH]; simpl; congruence. }
  assert (Hlist : get_market_prices pricesColl = json (Prices pricesColl)).
  { unfold get_market_prices, find. rewrite Hall. reflexivity. }
  assert (Hpatch : (patch_market_prices pricesColl grade_in (Some p) now).2
                   = json (PriceUpdated
                             {| grade := grade_in; price := p;
                                previousPrice :=
                                  option_map price (price_of_grade grade_in pricesColl);
                                updatedAt := Some now |})).
  { unfold patch_market_prices, price_of_grade, findOne. rewrite Hg.
    destruct (List.find _ pricesColl); reflexivity. }
  rewrite Hlist, Hpatch.
  split; [reflexivity |].
  unfold getMarketPrices, updateMarketPrice, bind.
  rewrite (tryFetch_usable_answer (API_BASE env) "/market-prices" _ None _ w
             (http_of (json (Prices pricesColl)) list_text
                (Some (PricesArray pricesColl)))
             (PricesArray pricesColl) (API_BASE_truthy env) eq_refl eq_refl eq_refl).
  rewrite (tryFetch_usable_answer (API_BASE env) "/market-prices" _ _ _ w
             (http_of (json (PriceUpdated _)) patch_text (Some (PriceEnvelope true _)))
             _ (API_BASE_truthy env) eq_refl eq_refl eq_refl).
  simpl. repeat split; reflexivity.
Qed.

(** An accepted submission through the server resolves with the record the
    server stored, with the server's id and timestamp, and nothing is
    written to local storage. *)
Theorem harvest_submission_through_server (env : Env) (harvestColl : list HarvestRequest)
    (requestData : HarvestData) (server_now_id server_now client_now_id client_now : Z)
    (server_suffix client_suffix body_text : string) (w : World) :
  Js.truthy (farmerId requestData) = true ->
  Js.truthy (h_grade requestData) = true ->
  Js.truthy_num (quantity requestData) = true ->
  let stored := {| data := requestData;
                   req_id := "req_" ++ Js.toString server_now_id ++ "_" ++ server_suffix;
                   req_status := "Pending Approval";
                   timestamp := server_now |} in
  let served :=
    post_harvest_requests harvestColl requestData server_now_id server_now
      server_suffix in
  let run :=
    submitHarvestRequest (API_BASE env)
      (answering served.2 body_text (RequestEnvelope true (Some stored)))
      requestData client_now_id client_now client_suffix w in
  as_request (body served.2) = Some (RequestEnvelope true (Some stored))
  /\ run.1 = Resolved (OutRequest stored)
  /\ localStorage run.2 = localStorage w.
Proof.
  intros Hf Hg Hq. cbv zeta.
  unfold post_harvest_requests. rewrite Hf, Hg, Hq. simpl.
  split; [reflexivity |].
  unfold submitHarvestRequest, bind.
  rewrite (tryFetch_usable_answer (API_BASE env) "/harvest-requests" _ _ _ w
             (http_of (status_json 201 (RequestCreated _)) body_text
                (Some (RequestEnvelope true _)))
             _ (API_BASE_truthy env) eq_refl eq_refl eq_refl).
  simpl. split; reflexivity.
Qed.

(** X23.  A submission the server refuses for a missing field is not refused by
    the facade: on the 400 answer it runs its fallback, which checks
    nothing, stores the request locally as "Pending Approval" and resolves
    with it, while the server's collection stays as it was. *)
Theorem harvest_rejected_submission_is_stored_locally (env : Env)
    (harvestColl : list HarvestRequest) (requestData : HarvestData)
    (server_now_id server_now client_now_id client_now : Z)
    (server_suffix client_suffix body_text : string) (w : World) :
  negb (Js.truthy (farmerId requestData)) || negb (Js.truthy (h_grade requestData))
  || negb (Js.truthy_num (quantity requestData)) = true ->
  let local := {| data := requestData;
                  req_id := "req_" ++ Js.toString client_now_id ++ "_" ++ client_suffix;
                  req_status := "Pending Approval";
                  timestamp := client_now |} in
  let served :=
    post_harvest_requests harvestColl requestData server_now_id server_now
      server_suffix in
  let run :=
    submitHarvestRequest (API_BASE env)
      (answering served.2 body_text (RequestEnvelope false None))
      requestData client_now_id client_now client_suffix w in
  served = (harvestColl, status_json 400 (Failure "Missing fields"))
  /\ as_request (body served.2) = Some (RequestEnvelope false None)
  /\ run.1 = Resolved (OutRequest local)
  /\ local_requests run.2 = (local_requests w ++ [local])%list.
Proof.
  intros Hbad. cbv zeta.
  unfold post_harvest_requests. rewrite Hbad. simpl.
  split; [reflexivity |]. split; [reflexivity |].
  assert (Hfails : remote_fails
                     (answering (status_json 400 (Failure "Missing fields")) body_text
                        (RequestEnvelope false None))
                     (build_url (API_BASE env) "/harvest-requests")
                     (Some {| method := "POST"; content_type := "application/json";
                              req_body := Submit requestData |}) = true)
    by reflexivity.
  unfold submitHarvestRequest, bind.
  rewrite (tryFetch_falls_back _ _ _ _ _ w _ _ (API_BASE_truthy env) Hfails
             (submitHarvestRequest_fallback_run requestData client_now_id client_now
                client_suffix _)).
  simpl. split; reflexivity.
Qed.

End EndToEnd.

(** ** The Twilio Verify server *)

Section TwilioFacts.

Import TwilioServer.

(** X24.  /verify-otp of the Twilio server answers [success: true] only for a
    request that carries a phone and a code, with the Verify service
    configured, when Twilio's check of exactly that phone and code returns
    the status "approved". *)
Theorem twilio_verify_success_only_when_approved
    (env : Env) (twilioClient : option Twilio) (phone code_in status : string) :
  body (verify_otp env twilioClient phone code_in) = VerificationChecked true status ->
  status = "approved" /\ phone <> "" /\ code_in <> ""
  /\ exists service client,
       configured (TWILIO_VERIFY_SID env) = Some service
       /\ twilioClient = Some client
       /\ verificationChecks_create client service phone code_in = Returned "approved"
       /\ verify_otp env twilioClient phone code_in
          = {| code := 200; body := VerificationChecked true "approved" |}.
Proof.
  unfold verify_otp.
  destruct (Js.truthy phone) eqn:Hp; simpl; [| discriminate].
  destruct (Js.truthy code_in) eqn:Hc; simpl; [| discriminate].
  destruct (configured (TWILIO_VERIFY_SID env)) as [service |]; [| discriminate].
  destruct twilioClient as [client |]; [| discriminate].
  destruct (verificationChecks_create client service phone code_in) as [st | msg] eqn:Hcheck;
    [| discriminate].
  simpl. intros [= Heq <-].
  apply String.eqb_eq in Heq. subst st.
  split; [reflexivity |].
  split; [apply truthy_nonempty, Hp |].
  split; [apply truthy_nonempty, Hc |].
  exists service, client. repeat split; assumption.
Qed.

(** X25.  Without a Verify service id, /send-otp can still answer with success by
    sending its fixed test message, but then no /verify-otp request is ever
    accepted, the code of the test message included: each is answered 400. *)
Theorem twilio_test_message_cannot_be_verified
    (env : Env) (client : Twilio) (phone from sid phone' code' : string) :
  configured (TWILIO_VERIFY_SID env) = None ->
  configured (TWILIO_PHONE_NUMBER env) = Some from ->
  Js.truthy phone = true ->
  messages_create client phone from "Test OTP from Aqua Bridge: 123456" = Returned sid ->
  send_otp env (Some client) phone = {| code := 200; body := TestMessageSent sid |}
  /\ verify_otp env (Some client) phone "123456"
     = {| code := 400; body := ErrorOnly "Verify service not configured" |}
  /\ code (verify_otp env (Some client) phone' code') = 400.
Proof.
  intros Hservice Hfrom Hp Hsent.
  unfold send_otp, verify_otp. rewrite Hservice, Hfrom, Hp, Hsent. simpl.
  split; [reflexivity |]. split; [reflexivity |].
  destruct (negb (Js.truthy phone') || negb (Js.truthy code')); reflexivity.
Qed.

End TwilioFacts.

(** ** The login screen *)

Section LoginFacts.

Import LoginScreen.

Lemma remove_spaces_clean (s : list N) :
  Forall (fun c => is_space c = false) s -> remove_spaces s = s.
Proof.
  unfold remove_spaces. induction 1 as [| c rest Hc _ IH]; simpl; [reflexivity |].
  rewrite Hc. simpl. congruence.
Qed.

Lemma remove_spaces_no_space (s : list N) :
  Forall (fun c => is_space c = false) (remove_spaces s).
Proof.
  apply List.Forall_forall. intros c Hc. apply List.filter_In in Hc.
  destruct Hc as [_ Hc]. apply negb_true_iff, Hc.
Qed.

Lemma digit_not_space (c : N) : is_digit c = true -> is_space c = false.
Proof.
  unfold is_digit, is_space. intros H. apply andb_prop in H. destruct H as [Hlo Hhi].
  apply N.leb_le in Hlo. apply N.leb_le in Hhi.
  apply orb_false_iff. split.
  - simpl. repeat (apply orb_false_iff; split); try reflexivity; apply N.eqb_neq; lia.
  - apply andb_false_iff. left. apply N.leb_gt. lia.
Qed.

Lemma digits_only_digits (s : list N) : Forall (fun c => is_digit c = true) (digits_only s).
Proof.
  apply List.Forall_forall. intros c Hc. apply List.filter_In in Hc. apply Hc.
Qed.

(** The four results of [normalizePhone]: the cleaned text when it starts
    with a plus sign, otherwise a plus sign, possibly 91, and digits. *)
Lemma normalizePhone_cases (raw : list N) :
  (startsWith (remove_spaces raw) (units "+") = true
   /\ normalizePhone raw = remove_spaces raw)
  \/ (startsWith (remove_spaces raw) (units "+") = false
      /\ exists country,
           (country = [] \/ country = units "91")
           /\ normalizePhone raw
              = (units "+" ++ country ++ digits_only (remove_spaces raw))%list).
Proof.
  unfold normalizePhone.
  destruct (startsWith (remove_spaces raw) (units "+")); [left; auto | right].
  split; [reflexivity |].
  destruct (Nat.eqb _ 10).
  - exists (units "91"). split; [right; reflexivity | reflexivity].
  - exists []. split; [left; reflexivity |].
    destruct (_ && _); reflexivity.
Qed.

Lemma normalizePhone_plus (raw : list N) :
  startsWith (normalizePhone raw) (units "+") = true.
Proof.
  destruct (normalizePhone_cases raw) as [[Hplus ->] | [_ (country & _ & ->)]];
    [exact Hplus | reflexivity].
Qed.

Lemma normalizePhone_no_space (raw : list N) :
  Forall (fun c => is_space c = false) (normalizePhone raw).
Proof.
  destruct (normalizePhone_cases raw) as [[_ ->] | [_ (country & Hcountry & ->)]];
    [apply remove_spaces_no_space |].
  apply Forall_app. split; [repeat constructor |].
  apply Forall_app. split.
  - destruct Hcountry as [-> | ->]; repeat constructor.
  - eapply List.Forall_impl; [| apply digits_only_digits].
    intros c Hc. apply digit_not_space, Hc.
Qed.

(** X26.  Whatever is typed, the normalised phone starts with a plus sign and
    holds no white space; unless the typed text, white space apart, already
    started with a plus sign, it is a plus sign followed by digits only. *)
Theorem normalizePhone_shape (raw : list N) :
  startsWith (normalizePhone raw) (units "+") = true
  /\ Forall (fun c => is_space c = false) (normalizePhone raw)
  /\ (startsWith (remove_spaces raw) (units "+") = true
      \/ exists digits, normalizePhone raw = (units "+" ++ digits)%list
                        /\ Forall (fun c => is_digit c = true) digits).
Proof.
  split; [apply normalizePhone_plus |].
  split; [apply normalizePhone_no_space |].
  destruct (normalizePhone_cases raw) as [[Hplus _] | [_ (country & Hcountry & ->)]];
    [left; exact Hplus | right].
  exists (country ++ digits_only (remove_spaces raw))%list.
  split; [reflexivity |].
  apply Forall_app. split; [| apply digits_only_digits].
  destruct Hcountry as [-> | ->]; repeat constructor.
Qed.

(** X27.  Normalising a phone that is already normalised changes nothing. *)
Theorem normalizePhone_idempotent (raw : list N) :
  normalizePhone (normalizePhone raw) = normalizePhone raw.
Proof.
  unfold normalizePhone at 1.
  rewrite (remove_spaces_clean _ (normalizePhone_no_space raw)).
  rewrite normalizePhone_plus. reflexivity.
Qed.

End LoginFacts.

Section LoginRequests.

Import LoginScreen.

Variable env : Env.
Variable null_error : string.

Lemma digits_only_remove_spaces (s : list N) :
  digits_only (remove_spaces s) = digits_only s.
Proof.
  unfold digits_only, remove_spaces. induction s as [| c rest IH]; simpl; [reflexivity |].
  destruct (is_digit c) eqn:Hd.
  - rewrite (digit_not_space c Hd). simpl. rewrite Hd. congruence.
  - destruct (is_space c); simpl; [exact IH | rewrite Hd; exact IH].
Qed.

Lemma digits_only_idempotent (s : list N) : digits_only (digits_only s) = digits_only s.
Proof.
  unfold digits_only. induction s as [| c rest IH]; simpl; [reflexivity |].
  destruct (is_digit c) eqn:Hd; simpl; [rewrite Hd; congruence | exact IH].
Qed.

(** Normalising never loses a digit that was typed. *)
Lemma normalizePhone_digits (raw : list N) :
  (length (digits_only raw) <= length (digits_only (normalizePhone raw)))%nat.
Proof.
  destruct (normalizePhone_cases raw) as [[_ ->] | [_ (country & Hcountry & ->)]].
  - rewrite digits_only_remove_spaces. lia.
  - unfold digits_only at 2. rewrite !List.filter_app.
    fold (digits_only (digits_only (remove_spaces raw))).
    rewrite digits_only_idempotent, digits_only_remove_spaces, !length_app. lia.
Qed.

Lemma trimStart_length (s : list N) : (length (trimStart s) <= length s)%nat.
Proof.
  induction s as [| c rest IH]; simpl; [lia |].
  destruct (is_space c); simpl; lia.
Qed.

Lemma trim_length (s : list N) : (length (trim s) <= length s)%nat.
Proof.
  unfold trim. rewrite length_rev.
  etransitivity; [apply trimStart_length |].
  rewrite length_rev. apply trimStart_length.
Qed.

(** X28.  The login screen sends a request only for input that passes its own
    checks, whatever the network then does.  /send-otp is called exactly
    when at least ten digits were typed, with the normalised phone, which
    starts with a plus sign and holds at least ten digits; /verify-otp is
    called exactly when the trimmed code has at least three characters, with
    the normalised phone and the trimmed code. *)
Theorem login_requests_are_validated (v : View) (net : Request -> Fetched) :
  match sent (sendOtp env v net) with
  | Some request =>
      (10 <= length (digits_only (phone v)))%nat
      /\ request = {| url := apiBase env ++ "/send-otp";
                      body_phone := normalizePhone (phone v);
                      body_code := None |}
      /\ startsWith (body_phone request) (units "+") = true
      /\ (10 <= length (digits_only (body_phone request)))%nat
  | None =>
      (length (digits_only (phone v)) < 10)%nat
      /\ sendOtp env v net
         = {| view := {| phone := phone v; otp := otp v; step := step v;
                         isSending := isSending v; isVerifying := isVerifying v;
                         message :=
                           Some "Please enter a valid phone number (10 digits)." |};
              sent := None; loggedIn := None |}
  end
  /\ match sent (verifyOtp env null_error v net) with
     | Some request =>
         (3 <= length (trim (otp v)))%nat
         /\ request = {| url := apiBase env ++ "/verify-otp";
                         body_phone := normalizePhone (phone v);
                         body_code := Some (trim (otp v)) |}
     | None =>
         (length (trim (otp v)) < 3)%nat
         /\ loggedIn (verifyOtp env null_error v net) = None
         /\ message (view (verifyOtp env null_error v net))
            = Some "Please enter the OTP received."
     end.
Proof.
  split.
  - unfold sendOtp.
    destruct (Nat.ltb_spec (length (digits_only (phone v))) 10) as [Hfew | Hmany]; simpl.
    + split; [exact Hfew | reflexivity].
    + split; [exact Hmany |]. split; [reflexivity |].
      split; [apply normalizePhone_plus |].
      etransitivity; [exact Hmany | apply normalizePhone_digits].
  - unfold verifyOtp.
    destruct (Nat.eqb_spec (length (otp v)) 0) as [Hempty | Hsome]; simpl.
    + pose proof (trim_length (otp v)).
      split; [lia |]. split; reflexivity.
    + destruct (Nat.ltb_spec (length (trim (otp v))) 3) as [Hshort | Hlong]; simpl.
      * split; [exact Hshort |]. split; reflexivity.
      * destruct (net _) as [msg | [|] [msg | [data |]]]; simpl;
          try (destruct (success data); simpl); (split; [exact Hlong | reflexivity]).
Qed.

End LoginRequests.

Section LoginOutcomes.

Import LoginScreen.

Variable env : Env.
Variable null_error : string.

Lemma verifyOtp_guard_passes (v : View) :
  (3 <= length (trim (otp v)))%nat ->
  (length (otp v) =? 0)%nat || (length (trim (otp v)) <? 3)%nat = false.
Proof.
  intros Hlong. pose proof (trim_length (otp v)) as Htrim.
  apply orb_false_iff. split; [apply Nat.eqb_neq | apply Nat.ltb_ge]; lia.
Qed.

(** X29.  The login screen against either server.  [onLoginSuccess] is called,
    with the normalised phone, exactly when api-backend answered Verified,
    respectively when the Twilio server reported the check as approved.
    Every other answer of either server, whatever its reason, is shown as
    "Incorrect OTP. Please try again.", because the servers put the reason
    in [error] and the screen reads [message]. *)
Theorem login_succeeds_only_when_server_verified (v : View)
    (store : gmap string Server.OtpEntry) (phone_in code_in : string) (now : Z)
    (twilio_env : TwilioServer.Env) (twilioClient : option TwilioServer.Twilio) :
  (3 <= length (trim (otp v)))%nat ->
  let api := (Server.verify_otp store phone_in code_in now).2 in
  let via_api := verifyOtp env null_error v (fun _ => of_api_backend api) in
  let twilio := TwilioServer.verify_otp twilio_env twilioClient phone_in code_in in
  let via_twilio := verifyOtp env null_error v (fun _ => of_twilio_backend twilio) in
  ((api = Server.Verified
    /\ loggedIn via_api = Some (normalizePhone (phone v))
    /\ message (view via_api) = Some "Login successful. Welcome!")
   \/ (api <> Server.Verified
       /\ loggedIn via_api = None
       /\ message (view via_api) = Some "Incorrect OTP. Please try again."))
  /\ ((twilio = {| TwilioServer.code := 200;
                   TwilioServer.body := TwilioServer.VerificationChecked true "approved" |}
       /\ loggedIn via_twilio = Some (normalizePhone (phone v))
       /\ message (view via_twilio) = Some "Login successful. Welcome!")
      \/ (TwilioServer.body twilio <> TwilioServer.VerificationChecked true "approved"
          /\ loggedIn via_twilio = None
          /\ message (view via_twilio) = Some "Incorrect OTP. Please try again.")).
Proof.
  intros Hlong. cbv zeta. unfold verifyOtp.
  rewrite (verifyOtp_guard_passes v Hlong).
  split.
  - unfold Server.verify_otp.
    destruct (negb (Js.truthy phone_in) || negb (Js.truthy code_in));
      [right; repeat split; discriminate |].
    destruct (store !! phone_in) as [entry |]; [| right; repeat split; discriminate].
    destruct (Server.expiresAt entry <? now); [right; repeat split; discriminate |].
    destruct (negb (String.eqb (Server.code entry) code_in));
      [right; repeat split; discriminate | left; repeat split].
  - unfold TwilioServer.verify_otp.
    destruct (negb (Js.truthy phone_in) || negb (Js.truthy code_in));
      [right; repeat split; discriminate |].
    destruct (TwilioServer.configured _) as [service |];
      [| right; repeat split; discriminate].
    destruct twilioClient as [client |]; [| right; repeat split; discriminate].
    destruct (TwilioServer.verificationChecks_create _ _ _ _) as [status | msg];
      [| right; repeat split; discriminate].
    destruct (String.eqb_spec status "approved") as [-> | Hne].
    + left. repeat split.
    + right. simpl. repeat split. intros [= H].
Qed.

(** X30.  The login screen against /send-otp of api-backend.  On an answer with
    status 200 the screen moves on to the code entry and shows "OTP sent.
    Check your phone.": the code the server hands back when Twilio is not
    configured is not shown.  On any other answer the screen stays where it
    is and shows the server's error text. *)
Theorem login_send_against_api_backend (v : View)
    (twilioClient : option (Server.SmsMessage -> Server.SmsResult))
    (TWILIO_PHONE : option string)
    (store : gmap string Server.OtpEntry) (phone_in : string) (now : Z) (random : Q) :
  (10 <= length (digits_only (phone v)))%nat ->
  let api := (Server.send_otp twilioClient TWILIO_PHONE store phone_in now random).2 in
  let shown := view (sendOtp env v (fun _ => of_api_backend api)) in
  (Server.status api = 200
   /\ step shown = enterOtp
   /\ message shown = Some "OTP sent. Check your phone.")
  \/ (Server.status api <> 200
      /\ step shown = step v
      /\ (message shown = Some "phone required"
          \/ message shown = Some "Failed to send SMS")).
Proof.
  intros Hdigits. cbv zeta. unfold sendOtp.
  assert (Hguard : (length (digits_only (phone v)) <? 10)%nat = false)
    by (apply Nat.ltb_ge; exact Hdigits).
  rewrite Hguard. unfold Server.send_otp.
  destruct (negb (Js.truthy phone_in));
    [right; simpl; repeat split; [discriminate | left; reflexivity] |].
  destruct twilioClient as [client |]; [| left; repeat split].
  destruct (client _); [left; repeat split |].
  right. simpl. repeat split; [discriminate | right; reflexivity].
Qed.

End LoginOutcomes.

(** ** Concrete runs, continued *)

Section MoreExamples.

Import Types Server ApiService HarvestService HarvestAdmin OtpRuns Wire Sample MoreSamples.

Lemma otp_verified_only_for_live_matching_entry_witness :
  exists entry,
    ({[ "+919876543210" := {| code := "123456"; expiresAt := 300000 |} ]}
       : gmap string OtpEntry) !! "+919876543210" = Some entry
    /\ code entry = "123456" /\ 1000 <= expiresAt entry.
Proof.
  destruct (otp_verified_only_for_live_matching_entry
              {[ "+919876543210" := {| code := "123456"; expiresAt := 300000 |} ]}
              "+919876543210" "123456" 1000) as (_ & _ & Hentry & _);
    [reflexivity | exact Hentry].
Defined.

Lemma otp_routes_leave_other_phones_witness :
  let store : gmap string OtpEntry :=
    {[ "+911111111111" := {| code := "123456"; expiresAt := 300000 |} ]} in
  (send_otp None None store "+912222222222" 1000 (1 # 2)).1 !! "+911111111111"
  = store !! "+911111111111".
Proof.
  apply (otp_routes_leave_other_phones None None
           {[ "+911111111111" := {| code := "123456"; expiresAt := 300000 |} ]}
           "+912222222222" "+911111111111" "000000" 1000 (1 # 2)).
  discriminate.
Defined.

Lemma otp_wrong_guesses_do_not_lock_witness :
  let store : gmap string OtpEntry :=
    {[ "+919876543210" := {| code := "123456"; expiresAt := 300000 |} ]} in
  verify_otp
    (verify_all store "+919876543210" [("000000", 10); ("", 20); ("999999", 30)])
    "+919876543210" "123456" 40
  = (delete "+919876543210" store, Verified).
Proof.
  apply (otp_wrong_guesses_do_not_lock
           {[ "+919876543210" := {| code := "123456"; expiresAt := 300000 |} ]}
           "+919876543210" {| code := "123456"; expiresAt := 300000 |}
           [("000000", 10); ("", 20); ("999999", 30)] 40);
    [reflexivity | reflexivity | reflexivity | | simpl; lia].
  repeat constructor; simpl; (discriminate || lia).
Defined.

Lemma otp_unconfigured_send_echoes_code_witness :
  exists echoed,
    (send_otp None None ∅ "+919876543210" 1000 (1 # 2)).2
    = json (OtpGenerated "OTP generated (not sent - twilio not configured)" echoed)
    /\ verify_otp (send_otp None None ∅ "+919876543210" 1000 (1 # 2)).1
         "+919876543210" echoed 2000
       = (delete "+919876543210" (send_otp None None ∅ "+919876543210" 1000 (1 # 2)).1,
          Verified).
Proof.
  apply (otp_unconfigured_send_echoes_code None ∅ "+919876543210" 1000 2000 (1 # 2));
    [reflexivity | lia].
Defined.


Lemma patch_market_prices_keeps_other_grades_witness :
  price_of_grade "Premium"
    (patch_market_prices [premium 500 None] "Jumbo" (Some 700) 1000).1
  = Some (premium 500 None).
Proof.
  apply (patch_market_prices_keeps_other_grades [premium 500 None] "Jumbo" "Premium"
           (Some 700) 1000).
  discriminate.
Defined.

Lemma patch_market_prices_keeps_grades_unique_witness :
  List.NoDup (map grade (patch_market_prices [premium 500 None] "Jumbo" (Some 700) 1000).1).
Proof.
  apply (patch_market_prices_keeps_grades_unique [premium 500 None] "Jumbo"
           (Some 700) 1000).
  constructor; [intros [] | constructor].
Defined.

Lemma harvest_listing_by_farmer_is_exact_witness :
  Forall (fun r => farmerId (data r) = "f1")
    (list_harvest_requests [request_of_f1] (Some "f1")).
Proof.
  apply (harvest_listing_by_farmer_is_exact [request_of_f1] "f1"). reflexivity.
Defined.


Lemma facade_network_error_outlives_failing_fallback_witness :
  (updateMarketPrice [premium 500 None] (API_BASE unset_env) offline "Jumbo" 700
     fresh_browser).1
  = Rejected {| name := "TypeError"; message := "Failed to fetch" |}
  /\ (updateHarvestRequestStatus (API_BASE unset_env) offline "req_0_missing"
        "Approved" fresh_browser).1
     = Rejected {| name := "TypeError"; message := "Failed to fetch" |}.
Proof.
  apply (facade_network_error_outlives_failing_fallback [premium 500 None] unset_env
           offline offline "Jumbo" "req_0_missing" "Approved" 700
           {| name := "TypeError"; message := "Failed to fetch" |}
           {| name := "TypeError"; message := "Failed to fetch" |} fresh_browser);
    reflexivity.
Defined.

Lemma market_status_local_round_trip_witness :
  (getMarketStatus (API_BASE unset_env) offline
     (updateMarketStatus (API_BASE unset_env) offline false fresh_browser).2).1
  = Resolved false.
Proof.
  pose proof (market_status_local_round_trip unset_env offline fresh_browser false
                eq_refl eq_refl) as H.
  cbv zeta in H. exact (proj2 (proj2 H)).
Defined.

Lemma updateMarketPrice_offline_result_witness :
  (updateMarketPrice [premium 500 None] (API_BASE unset_env) offline "Premium" 550
     fresh_browser).1
  = Resolved (OutNumber 550).
Proof.
  apply (updateMarketPrice_offline_result [premium 500 None] unset_env offline
           "Premium" 550 (premium 500 None) fresh_browser); reflexivity.
Defined.

Lemma updateMarketPrice_local_keeps_other_rows_witness :
  stored_price "Premium"
    (updateMarketPrice [premium 500 None;
                        {| grade := "Jumbo"; price := 700; previousPrice := None;
                           updatedAt := None |}]
       (API_BASE unset_env) offline "Jumbo" 750 fresh_browser).2
  = Some (premium 500 None).
Proof.
  pose proof (updateMarketPrice_local_keeps_other_rows
                [premium 500 None;
                 {| grade := "Jumbo"; price := 700; previousPrice := None;
                    updatedAt := None |}]
                unset_env offline "Jumbo" "Premium" 750
                {| grade := "Jumbo"; price := 700; previousPrice := None;
                   updatedAt := None |}
                fresh_browser eq_refl eq_refl) as H.
  cbv zeta in H. destruct H as [H _]; [discriminate | exact H].
Defined.

Lemma harvest_offline_submit_then_list_witness :
  (submitHarvestRequest (API_BASE unset_env) offline pond_of_f1
     1700000000000 1700000000000 "k3j9x0q2a" fresh_browser).1
  = Resolved (OutRequest request_of_f1).
Proof.
  pose proof (harvest_offline_submit_then_list unset_env offline offline pond_of_f1
                1700000000000 1700000000000 "k3j9x0q2a" "f2" fresh_browser
                eq_refl eq_refl eq_refl) as H.
  cbv zeta in H. destruct H as [H _]; [discriminate | exact H].
Defined.

Lemma harvest_offline_status_update_witness :
  let stored := with_requests [request_of_f1] fresh_browser in
  (updateHarvestRequestStatus (API_BASE unset_env) offline
     "req_1700000000000_k3j9x0q2a" "Approved" stored).1
  = Resolved (OutRequest (set_status "Approved" request_of_f1)).
Proof.
  pose proof (harvest_offline_status_update unset_env offline
                "req_1700000000000_k3j9x0q2a" "Approved" request_of_f1
                (with_requests [request_of_f1] fresh_browser) eq_refl eq_refl) as H.
  cbv zeta in H. exact (proj1 H).
Defined.

Lemma market_prices_through_server_witness :
  (updateMarketPrice [] (API_BASE unset_env)
     (answering (patch_market_prices [premium 500 None] "Premium" (Some 550) 1000).2
        "" (PriceEnvelope true
              (Some {| grade := "Premium"; price := 550; previousPrice := Some 500;
                       updatedAt := Some 1000 |})))
     "Premium" 550 fresh_browser).1
  = Resolved (OutPrice {| grade := "Premium"; price := 550; previousPrice := Some 500;
                          updatedAt := Some 1000 |}).
Proof.
  pose proof (market_prices_through_server [] unset_env [premium 500 None] "Premium"
                550 1000 "" "" fresh_browser eq_refl) as H.
  cbv zeta in H. destruct H as (_ & _ & _ & _ & H & _). exact H.
Defined.

Lemma harvest_rejected_submission_is_stored_locally_witness :
  post_harvest_requests [] no_quantity 1 2 "server000"
  = ([], status_json 400 (Failure "Missing fields"))
  /\ local_requests
       (submitHarvestRequest (API_BASE unset_env)
          (answering (post_harvest_requests [] no_quantity 1 2 "server000").2 ""
             (RequestEnvelope false None))
          no_quantity 3 4 "client000" fresh_browser).2
     = [ {| data := no_quantity; req_id := "req_3_client000";
            req_status := "Pending Approval"; timestamp := 4 |} ].
Proof.
  pose proof (harvest_rejected_submission_is_stored_locally unset_env [] no_quantity
                1 2 3 4 "server000" "client000" "" fresh_browser eq_refl) as H.
  cbv zeta in H. destruct H as (Hserver & _ & _ & Hlocal).
  split; [exact Hserver | exact Hlocal].
Defined.

Lemma twilio_verify_success_only_when_approved_witness :
  exists service client,
    TwilioServer.configured (Some "VA0001") = Some service
    /\ Some twilio_account = Some client
    /\ TwilioServer.verificationChecks_create client service "+919876543210" "123456"
       = TwilioServer.Returned "approved".
Proof.
  destruct (twilio_verify_success_only_when_approved
              {| TwilioServer.TWILIO_VERIFY_SID := Some "VA0001";
                 TwilioServer.TWILIO_PHONE_NUMBER := None |}
              (Some twilio_account) "+919876543210" "123456" "approved" eq_refl)
    as (_ & _ & _ & service & client & Hservice & Hclient & Hcheck & _).
  exists service, client. repeat split; assumption.
Defined.

Lemma twilio_test_message_cannot_be_verified_witness :
  let env := {| TwilioServer.TWILIO_VERIFY_SID := None;
                TwilioServer.TWILIO_PHONE_NUMBER := Some "+15005550006" |} in
  TwilioServer.send_otp env (Some twilio_account) "+919876543210"
  = {| TwilioServer.code := 200; TwilioServer.body := TwilioServer.TestMessageSent "SM1" |}
  /\ TwilioServer.verify_otp env (Some twilio_account) "+919876543210" "123456"
     = {| TwilioServer.code := 400;
          TwilioServer.body := TwilioServer.ErrorOnly "Verify service not configured" |}.
Proof.
  pose proof (twilio_test_message_cannot_be_verified
                {| TwilioServer.TWILIO_VERIFY_SID := None;
                   TwilioServer.TWILIO_PHONE_NUMBER := Some "+15005550006" |}
                twilio_account "+919876543210" "+15005550006" "SM1"
                "+919876543210" "123456" eq_refl eq_refl eq_refl eq_refl) as H.
  destruct H as (Hsend & Hverify & _). split; [exact Hsend | exact Hverify].
Defined.

Lemma login_succeeds_only_when_server_verified_witness :
  let store : gmap string OtpEntry :=
    {[ "+919876543210" := {| code := "550000"; expiresAt := 300000 |} ]} in
  LoginScreen.loggedIn
    (LoginScreen.verifyOtp development "" filled_form
       (fun _ => LoginScreen.of_api_backend
                   (verify_otp store "+919876543210" "550000" 1000).2))
  = Some (LoginScreen.units "+919876543210").
Proof.
  pose proof (login_succeeds_only_when_server_verified development "" filled_form
                {[ "+919876543210" := {| code := "550000"; expiresAt := 300000 |} ]}
                "+919876543210" "550000" 1000
                {| TwilioServer.TWILIO_VERIFY_SID := None;
                   TwilioServer.TWILIO_PHONE_NUMBER := None |} None) as H.
  cbv zeta in H.
  destruct H as [[(_ & Hin & _) | (Hno & _)] _];
    [vm_compute; lia | exact Hin | exfalso; apply Hno; reflexivity].
Defined.

Lemma login_send_against_api_backend_witness :
  LoginScreen.message
    (LoginScreen.view
       (LoginScreen.sendOtp development filled_form
          (fun _ => LoginScreen.of_api_backend
                      (send_otp None None ∅ "+919876543210" 1000 (1 # 2)).2)))
  = Some "OTP sent. Check your phone.".
Proof.
  pose proof (login_send_against_api_backend development filled_form None None ∅
                "+919876543210" 1000 (1 # 2)) as H.
  cbv zeta in H.
  destruct H as [(_ & _ & Hshown) | (Hno & _)];
    [vm_compute; lia | exact Hshown | exfalso; apply Hno; reflexivity].
Defined.

End MoreExamples.
